(** * AgentForgeEnhanced: a shallow embedding of src/unnamed/part_000

    JavaScript strings are modelled as [String.string] over 8-bit
    characters read as Latin-1 code points (the first 256 UTF-16 code
    units).  Promises are modelled by an error-and-state monad; the
    external collaborators (the OpenAI client, the clock, the file
    system and [JSON.stringify]) are Section variables. *)

From Stdlib Require Import Ascii String List Bool Arith Lia.
From stdpp Require Import base gmap strings.
Import ListNotations.

Local Open Scope string_scope.
Local Open Scope nat_scope.

(* ------------------------------------------------------------------ *)
(** ** JavaScript string primitives *)

Module JS.

Definition code (c : ascii) : nat := nat_of_ascii c.

(** Characters matched by the regex class [\s] and removed by
    [String.prototype.trim] (restricted to Latin-1): TAB, LF, VT, FF,
    CR, SPACE and NO-BREAK SPACE. *)
Definition is_space (c : ascii) : bool :=
  let n := code c in
  (9 <=? n) && (n <=? 13) || (n =? 32) || (n =? 160).

Definition is_lower (c : ascii) : bool := (97 <=? code c) && (code c <=? 122).
Definition is_upper (c : ascii) : bool := (65 <=? code c) && (code c <=? 90).
Definition is_digit (c : ascii) : bool := (48 <=? code c) && (code c <=? 57).

(** Regex [\w]: [A-Za-z0-9_]. *)
Definition is_word (c : ascii) : bool :=
  is_lower c || is_upper c || is_digit c || (code c =? 95).

(** [toLowerCase] on one Latin-1 character: A-Z and the Latin-1
    capitals U+00C0..U+00DE other than U+00D7 move up by 32. *)
Definition lower_char (c : ascii) : ascii :=
  let n := code c in
  if is_upper c || ((192 <=? n) && (n <=? 222) && negb (n =? 215))
  then ascii_of_nat (n + 32) else c.

Fixpoint toLowerCase (s : string) : string :=
  match s with
  | EmptyString => EmptyString
  | String c r => String (lower_char c) (toLowerCase r)
  end.

Fixpoint starts_with (p s : string) : bool :=
  match p, s with
  | EmptyString, _ => true
  | String a p', String b s' => Ascii.eqb a b && starts_with p' s'
  | String _ _, EmptyString => false
  end.

(** [s.includes(p)]. *)
Fixpoint includes (s p : string) : bool :=
  match s with
  | EmptyString => starts_with p EmptyString
  | String _ r => starts_with p s || includes r p
  end.

Fixpoint drop_spaces (s : string) : string :=
  match s with
  | String c r => if is_space c then drop_spaces r else s
  | EmptyString => EmptyString
  end.

Fixpoint rev_str (s : string) : string :=
  match s with
  | EmptyString => EmptyString
  | String c r => rev_str r ++ String c EmptyString
  end.

(** [s.trim()]. *)
Definition trim (s : string) : string :=
  rev_str (drop_spaces (rev_str (drop_spaces s))).

(** [xs.join(sep)]. *)
Fixpoint join (sep : string) (xs : list string) : string :=
  match xs with
  | [] => EmptyString
  | [x] => x
  | x :: r => x ++ sep ++ join sep r
  end.

(** Truthiness of a string: only the empty string is falsy. *)
Definition truthy (s : string) : bool :=
  match s with EmptyString => false | _ => true end.

(** [a || b] on an optional string ([undefined] is [None]). *)
Definition or_default (a : option string) (b : string) : string :=
  match a with
  | Some s => if truthy s then s else b
  | None => b
  end.

(** Rendering of a possibly [undefined] string inside a template
    literal. *)
Definition interp (a : option string) : string :=
  match a with Some s => s | None => "undefined" end.

(** [s.substring(0, n)]. *)
Definition substring0 (n : nat) (s : string) : string := String.substring 0 n s.

(** Number of pieces of [s.split(p)] for a non-empty [p]: one more than
    the number of non-overlapping occurrences scanned left to right. *)
Fixpoint split_count_fuel (fuel : nat) (s p : string) : nat :=
  match fuel with
  | O => 1
  | S f =>
      match s with
      | EmptyString => 1
      | String _ r =>
          if starts_with p s
          then S (split_count_fuel f (String.substring (String.length p)
                                        (String.length s) s) p)
          else split_count_fuel f r p
      end
  end.

Definition split_length (s p : string) : nat :=
  split_count_fuel (S (String.length s)) s p.

End JS.

Definition nl : string := String (ascii_of_nat 10) EmptyString.
Definition dq : string := String (ascii_of_nat 34) EmptyString.

(* ------------------------------------------------------------------ *)
(** ** generateSkillName *)

(** [.replace(/[^a-z0-9\s]/g, '')] *)
Fixpoint strip_non_slug (s : string) : string :=
  match s with
  | EmptyString => EmptyString
  | String c r =>
      if JS.is_lower c || JS.is_digit c || JS.is_space c
      then String c (strip_non_slug r) else strip_non_slug r
  end.

(** [.replace(/\s+/g, '-')]: each maximal run of [\s] becomes one
    hyphen; [in_run] records that the previous character was in a run. *)
Fixpoint hyphenate_runs (in_run : bool) (s : string) : string :=
  match s with
  | EmptyString => EmptyString
  | String c r =>
      if JS.is_space c
      then if in_run then hyphenate_runs true r
           else String "-" (hyphenate_runs true r)
      else String c (hyphenate_runs false r)
  end.

Definition generateSkillName (description : string) : string :=
  JS.substring0 50 (hyphenate_runs false (strip_non_slug (JS.toLowerCase description))).

(* ------------------------------------------------------------------ *)
(** ** Data model (the exported interfaces) *)

Inductive Framework := openclaw | langchain | autogen.
Inductive Complexity := simple | intermediate | advanced.
Inductive SolanaType := jupiter | pyth | metaplex | serum | mango.

Record SolanaIntegration := {
  si_type : SolanaType;
  si_functionality : list string
}.

(** A request as it arrives at run time: the framework and complexity
    fields are plain strings (the TypeScript union types are not checked
    at run time); [None] is [undefined]. *)
Record SkillGenerationRequest := {
  description : string;
  framework : string;
  features : list string;
  integrations : option (list string);
  complexity : option string;
  solanaFeatures : option (list SolanaIntegration)
}.

Record AgentforgeInfo := {
  generated : bool;
  quality_score : Z;
  af_complexity : string;
  af_features : list string
}.

Record SkillMetadata := {
  name : string;
  md_description : string;
  version : string;
  author : string;
  tags : list string;
  homepage : option string;
  md_dependencies : option (list (string * string));
  agentforge : option AgentforgeInfo
}.

Inductive CodeType := ct_typescript | ct_javascript | ct_python | ct_rust | ct_markdown.
Inductive CodePurpose := cp_main | cp_util | cp_test | cp_config | cp_type.

Record CodeFile := {
  cf_filename : string;
  cf_content : string;
  cf_type : CodeType;
  cf_purpose : CodePurpose
}.

Inductive TestType := tt_unit | tt_integration | tt_e2e.

Record TestFile := {
  tf_filename : string;
  tf_content : string;
  tf_type : TestType;
  tf_coverage : option Z
}.

Record ValidationResult := {
  isValid : bool;
  errors : list string;
  warnings : list string;
  suggestions : list string;
  score : Z;
  security_score : Z;
  performance_score : Z
}.

Inductive Network := mainnet_beta | devnet | testnet.

Record ProgramConfig := { pc_name : string; pc_address : string }.
Record TokenConfig := { tk_symbol : string; tk_mint : string; tk_decimals : Z }.

Record SolanaConfig := {
  network : Network;
  programs : list ProgramConfig;
  tokens : list TokenConfig
}.

Record GeneratedSkill := {
  skillMd : string;
  metadata : SkillMetadata;
  codeFiles : list CodeFile;
  testFiles : list TestFile;
  dependencies : list string;
  validationResult : ValidationResult;
  solanaConfig : option SolanaConfig
}.

Record SkillTemplate := { tpl_name : string; tpl_content : string }.

(* ------------------------------------------------------------------ *)
(** ** Regular expressions of the security pass *)

Module Regex.

(** [re.test(s)] for an unanchored pattern: the pattern matches at some
    position of [s]; [at_pos] decides a match starting at the head of
    its argument. *)
Fixpoint test (at_pos : string -> bool) (s : string) : bool :=
  match s with
  | EmptyString => at_pos s
  | String _ r => at_pos s || test at_pos r
  end.

Fixpoint drop (n : nat) (s : string) : string :=
  match n, s with
  | O, _ => s
  | S _, EmptyString => EmptyString
  | S n', String _ r => drop n' r
  end.

(** The text after a matched literal prefix [p]. *)
Definition after (p s : string) : string := drop (String.length p) s.

(** [<lit>\s*<c>]: the greedy [\s*] takes every space, and since [c] is
    not a space no shorter choice can succeed. *)
Definition lit_spaces_char (lit c : string) (s : string) : bool :=
  JS.starts_with lit s && JS.starts_with c (JS.drop_spaces (after lit s)).

Definition eval_call : string -> bool := lit_spaces_char "eval" "(".
Definition exec_call : string -> bool := lit_spaces_char "exec" "(".
Definition innerHTML_assign : string -> bool := lit_spaces_char "innerHTML" "=".

(** [process\.env\.\w+] *)
Definition process_env (s : string) : bool :=
  JS.starts_with "process.env." s &&
  match after "process.env." s with
  | String c _ => JS.is_word c
  | EmptyString => false
  end.

End Regex.

(* ------------------------------------------------------------------ *)
(** ** Validation engine *)

Open Scope Z_scope.

Record DangerousPattern := {
  pattern : string -> bool;
  message : string;
  deduction : Z
}.

Definition dangerousPatterns : list DangerousPattern := [
  {| pattern := Regex.eval_call; message := "eval() usage detected - security risk"; deduction := 30 |};
  {| pattern := Regex.exec_call; message := "exec() usage detected - potential command injection"; deduction := 25 |};
  {| pattern := Regex.innerHTML_assign; message := "innerHTML usage - potential XSS risk"; deduction := 15 |};
  {| pattern := Regex.process_env; message := "Environment variable usage without validation"; deduction := 5 |}
].

Record SecurityIssues := {
  critical : list string;
  sec_warnings : list string;
  sec_scoreDeduction : Z
}.

Definition allContent (skillMd : string) (codeFiles : list CodeFile) : string :=
  skillMd ++ JS.join nl (map cf_content codeFiles).

(** One [forEach] step over [dangerousPatterns]. *)
Definition security_step (allContent : string) (acc : list string * Z)
    (p : DangerousPattern) : list string * Z :=
  if Regex.test (pattern p) allContent
  then ((fst acc ++ [message p])%list, snd acc + deduction p)
  else acc.

Definition validateSecurity (skillMd : string) (codeFiles : list CodeFile) : SecurityIssues :=
  let all := allContent skillMd codeFiles in
  let '(critical, d) := fold_left (security_step all) dangerousPatterns ([], 0) in
  if negb (JS.includes all "try") && negb (JS.includes all "catch")
  then {| critical := critical; sec_warnings := ["No error handling detected"];
          sec_scoreDeduction := d + 10 |}
  else {| critical := critical; sec_warnings := []; sec_scoreDeduction := d |}.

Record PerformanceIssues := {
  perf_warnings : list string;
  perf_suggestions : list string;
  perf_scoreDeduction : Z
}.

Definition validatePerformance (skillMd : string) (codeFiles : list CodeFile) : PerformanceIssues :=
  let all := allContent skillMd codeFiles in
  let '(w, d) :=
    if JS.includes all "setInterval" && negb (JS.includes all "clearInterval")
    then (["setInterval without clearInterval - potential memory leak"], 10)
    else ([], 0) in
  let s :=
    if JS.includes all "setTimeout" && (5 <? JS.split_length all "setTimeout")%nat
    then ["Consider using async/await instead of multiple setTimeout calls"]
    else [] in
  {| perf_warnings := w; perf_suggestions := s; perf_scoreDeduction := d |}.

Record DocScore := { bonus : Z; doc_suggestions : list string }.

Definition validateDocumentation (skillMd : string) : DocScore :=
  let b1 := if JS.includes skillMd "## Usage" || JS.includes skillMd "## Example" then 5 else 0 in
  let b2 := if JS.includes skillMd "## Installation" then 3 else 0 in
  let b3 := if JS.includes skillMd "## Troubleshooting" || JS.includes skillMd "## FAQ" then 5 else 0 in
  let b4 := if JS.includes skillMd "```" then 3 else 0 in
  {| bonus := b1 + b2 + b3 + b4;
     doc_suggestions :=
       if negb (JS.includes skillMd "##")
       then ["Consider adding section headers for better organization"] else [] |}.

Definition enhancedValidation (skill : GeneratedSkill) : ValidationResult :=
  let '(e0, q0) :=
    if negb (JS.includes (skillMd skill) "---")
    then (["Missing YAML frontmatter"], 100 - 20) else ([], 100) in
  let '(e1, q1) :=
    if negb (JS.truthy (name (metadata skill)))
    then ((e0 ++ ["Missing skill name"])%list, q0 - 15) else (e0, q0) in
  let sec := validateSecurity (skillMd skill) (codeFiles skill) in
  let perf := validatePerformance (skillMd skill) (codeFiles skill) in
  let doc := validateDocumentation (skillMd skill) in
  let errs := (e1 ++ critical sec)%list in
  {| isValid := Nat.eqb (length errs) 0;
     errors := errs;
     warnings := (sec_warnings sec ++ perf_warnings perf)%list;
     suggestions := (perf_suggestions perf ++ doc_suggestions doc)%list;
     score := Z.max 0 (q1 + bonus doc);
     security_score := Z.max 0 (100 - sec_scoreDeduction sec);
     performance_score := Z.max 0 (100 - perf_scoreDeduction perf) |}.

Close Scope Z_scope.

(* ------------------------------------------------------------------ *)
(** ** Metadata extraction *)

Module Frontmatter.

(** Index of the first occurrence of [p] in [s]. *)
Fixpoint first_occ (p s : string) : option nat :=
  if JS.starts_with p s then Some 0%nat
  else match s with
       | EmptyString => None
       | String _ r => option_map S (first_occ p r)
       end.

(** [skillMd.match(/^---\n([\s\S]*?)\n---/)?.[1]]: anchored at the
    start; the lazy group stops at the first newline followed by three
    dashes. *)
Definition frontmatterMatch (s : string) : option string :=
  let open_ := "---" ++ nl in
  if JS.starts_with open_ s then
    let r := Regex.after open_ s in
    match first_occ (nl ++ "---") r with
    | Some i => Some (String.substring 0 i r)
    | None => None
    end
  else None.

(** The class of characters other than the double quote, the single
    quote and the newline, written [QCLASS] below. *)
Definition field_char (c : ascii) : bool :=
  negb (JS.code c =? 34) && negb (JS.code c =? 39) && negb (JS.code c =? 10).

Definition is_quote (c : ascii) : bool := (JS.code c =? 34) || (JS.code c =? 39).

(** The greedy group [(QCLASS+)]: the longest prefix of class
    characters. *)
Fixpoint field_prefix (s : string) : string :=
  match s with
  | String c r => if field_char c then String c (field_prefix r) else EmptyString
  | EmptyString => EmptyString
  end.

(** An optional quote followed by [(QCLASS+)] at the head of [t]:
    with the quote first, then without it. *)
Definition quote_then_value (t : string) : option string :=
  match t with
  | String q u =>
      if is_quote q then
        match u with
        | String c _ => if field_char c then Some (field_prefix u) else None
        | EmptyString => None
        end
      else if field_char q then Some (field_prefix t) else None
  | EmptyString => None
  end.

(** [\s*], an optional quote, [(QCLASS+)] and an optional quote, with
    the backtracking order of the greedy [\s*]: longest run of spaces
    first, then shorter ones; the trailing optional quote always
    succeeds. *)
Fixpoint spaces_then_value (t : string) : option string :=
  match t with
  | String c r =>
      if JS.is_space c then
        match spaces_then_value r with
        | Some v => Some v
        | None => if field_char c then Some (field_prefix t) else None
        end
      else quote_then_value t
  | EmptyString => None
  end.

(** Case-insensitive literal prefix (flag [i]). *)
Definition ci_starts_with (p s : string) : bool :=
  JS.starts_with (JS.toLowerCase p) (JS.toLowerCase (String.substring 0 (String.length p) s)).

(** [frontmatter.match(regex)?.[1]] for the case-insensitive regex
    [field:\s*], optional quote, [(QCLASS+)], optional quote: the
    leftmost position where the whole pattern matches. The field name is
    matched as a literal, which is what [new RegExp] does for names free
    of regex metacharacters such as the three the source passes (name,
    description, version). *)
Fixpoint fieldMatch (field : string) (s : string) : option string :=
  let here :=
    if ci_starts_with (field ++ ":") s
    then spaces_then_value (Regex.after (field ++ ":") s) else None in
  match here with
  | Some v => Some v
  | None => match s with
            | EmptyString => None
            | String _ r => fieldMatch field r
            end
  end.

(** [parseField(field, defaultValue)] inside [parseEnhancedMetadata]. *)
Definition parseField (frontmatter : string) (field : string) (defaultValue : string) : string :=
  JS.or_default (option_map JS.trim (fieldMatch field frontmatter)) defaultValue.

End Frontmatter.

Definition request_complexity (request : SkillGenerationRequest) : string :=
  JS.or_default (complexity request) "intermediate".

Definition metadata_of (name description version : string)
    (request : SkillGenerationRequest) : SkillMetadata :=
  {| name := name;
     md_description := description;
     version := version;
     author := "AgentForge";
     tags := ("generated" :: "agentforge" :: features request)%list;
     homepage := None;
     md_dependencies := None;
     agentforge := Some {| generated := true;
                           quality_score := 0%Z;
                           af_complexity := request_complexity request;
                           af_features := features request |} |}.

(** The [try] block: [inl] is the thrown error's message. *)
Definition parseEnhancedMetadata_try (skillMd : string) (request : SkillGenerationRequest)
    : string + SkillMetadata :=
  match Frontmatter.frontmatterMatch skillMd with
  | None => inl "No frontmatter found in generated skill"
  | Some frontmatter =>
      let name := JS.or_default (Some (Frontmatter.parseField frontmatter "name" ""))
                                (generateSkillName (description request)) in
      let description := JS.or_default (Some (Frontmatter.parseField frontmatter "description" ""))
                                       (description request) in
      let version := Frontmatter.parseField frontmatter "version" "1.0.0" in
      inr (metadata_of name description version request)
  end.

(** [parseEnhancedMetadata]: the [catch] rebuilds the defaults. *)
Definition parseEnhancedMetadata (skillMd : string) (request : SkillGenerationRequest)
    : SkillMetadata :=
  match parseEnhancedMetadata_try skillMd request with
  | inr m => m
  | inl _ => metadata_of (generateSkillName (description request))
                         (description request) "1.0.0" request
  end.

(* ------------------------------------------------------------------ *)
(** ** Template registry *)

(** The [content] of the OpenClaw template registered by
    [initializeEnhancedTemplates], line by line; it ends with a newline. *)
Definition openclaw_template_lines : list string := [
  "---";
  "name: skill-name";
  "description: Brief description of what this skill does";
  "version: 1.0.0";
  "author: AgentForge";
  "category: " ++ dq ++ "general" ++ dq;
  "tags: [" ++ dq ++ "tag1" ++ dq ++ ", " ++ dq ++ "tag2" ++ dq ++ "]";
  "complexity: intermediate";
  "requirements:";
  "  node: " ++ dq ++ ">=18.0.0" ++ dq;
  "  openclaw: " ++ dq ++ ">=2.0.0" ++ dq;
  "dependencies: {}";
  "---";
  "";
  "# Skill Name";
  "";
  "Brief description of the skill and its purpose.";
  "";
  "## Features";
  "";
  "- Feature 1";
  "- Feature 2";
  "- Feature 3";
  "";
  "## Installation";
  "";
  "```bash";
  "# Installation instructions";
  "```";
  "";
  "## Usage";
  "";
  "```javascript";
  "// Basic usage example";
  "```";
  "";
  "## Configuration";
  "";
  "| Option | Type | Default | Description |";
  "|--------|------|---------|-------------|";
  "| option1 | string | " ++ dq ++ "default" ++ dq ++ " | Description |";
  "";
  "## API Reference";
  "";
  "### Functions";
  "";
  "#### functionName(param)";
  "";
  "Description of the function.";
  "";
  "**Parameters:**";
  "- `param` (type): Description";
  "";
  "**Returns:** Return type and description";
  "";
  "**Example:**";
  "```javascript";
  "// Example usage";
  "```";
  "";
  "## Error Handling";
  "";
  "Common errors and how to handle them.";
  "";
  "## Performance Considerations";
  "";
  "Tips for optimal performance.";
  "";
  "## Security Notes";
  "";
  "Security considerations and best practices.";
  "";
  "## Troubleshooting";
  "";
  "Common issues and solutions.";
  "";
  "## Contributing";
  "";
  "How to contribute to this skill.";
  "";
  "## License";
  "";
  "License information."
].

(** The system message of the chat completion request. *)
Definition system_prompt_lines : list string := [
  "You are an expert AI agent developer and OpenClaw specialist. Your skills are:";
  "          - Deep knowledge of OpenClaw architecture and best practices";
  "          - Expertise in TypeScript, Node.js, and modern development patterns";
  "          - Understanding of AI agent patterns and frameworks";
  "          - Knowledge of Solana blockchain development when applicable";
  "          - Security-first coding practices";
  "          - Performance optimization techniques";
  "          ";
  "          Generate production-ready, well-documented, and secure skills that follow all best practices."
].

Definition openclaw_template : SkillTemplate :=
  {| tpl_name := "OpenClaw Skill Template";
     tpl_content := JS.join nl openclaw_template_lines ++ nl |}.

(** [this.templates = new Map()] followed by
    [initializeEnhancedTemplates()]: the only [set] is for openclaw. *)
Definition initializeEnhancedTemplates (templates : gmap string SkillTemplate)
    : gmap string SkillTemplate :=
  <["openclaw" := openclaw_template]> templates.

Definition initial_templates : gmap string SkillTemplate :=
  initializeEnhancedTemplates ∅.

(* ------------------------------------------------------------------ *)
(** ** Prompt composition *)

(** A property read [obj[key]] on an object literal: an own property, a
    property inherited from [Object.prototype], or [undefined]. *)
Inductive PropValue :=
  | PString (s : string)
  | PNativeFunction (fname : string)
  | PObjectPrototype.

Definition object_prototype_methods : list string :=
  ["constructor"; "hasOwnProperty"; "isPrototypeOf"; "propertyIsEnumerable";
   "toLocaleString"; "toString"; "valueOf"; "__defineGetter__";
   "__defineSetter__"; "__lookupGetter__"; "__lookupSetter__"].

Definition get_prop (obj : gmap string string) (key : string) : option PropValue :=
  match obj !! key with
  | Some s => Some (PString s)
  | None =>
      (* [Object.prototype.constructor] is [Object] itself *)
      if existsb (String.eqb key) object_prototype_methods
      then Some (PNativeFunction (if String.eqb key "constructor" then "Object" else key))
      else if String.eqb key "__proto__" then Some PObjectPrototype
      else None
  end.

(** [`${v}`] for such a value. *)
Definition interp_prop (v : option PropValue) : string :=
  match v with
  | Some (PString s) => s
  | Some (PNativeFunction f) => "function " ++ f ++ "() { [native code] }"
  | Some PObjectPrototype => "[object Object]"
  | None => "undefined"
  end.

Definition simple_guideline : string :=
  "Focus on single responsibility, minimal dependencies, easy to understand".
Definition intermediate_guideline : string :=
  "Include error handling, configuration options, moderate complexity".
Definition advanced_guideline : string :=
  "Full feature set, comprehensive error handling, extensible architecture".

Definition complexityGuidelines : gmap string string :=
  <["simple" := simple_guideline]>
  (<["intermediate" := intermediate_guideline]>
   (<["advanced" := advanced_guideline]> ∅)).

Definition frameworkSpecifics : gmap string string :=
  <["openclaw" := "Use OpenClaw conventions, leverage available tools, integrate with OpenClaw ecosystem"]>
  (<["langchain" := "Follow LangChain patterns, use chains and agents appropriately"]>
   (<["autogen" := "Implement multi-agent conversation patterns, use AutoGen framework"]> ∅)).

(** [`${complexityGuidelines[request.complexity || 'intermediate']}`] *)
Definition complexity_section (request : SkillGenerationRequest) : string :=
  interp_prop (get_prop complexityGuidelines (request_complexity request)).

(** [request.integrations?.join(', ') || 'none'] *)
Definition integrations_text (request : SkillGenerationRequest) : string :=
  JS.or_default (option_map (JS.join ", ") (integrations request)) "none".

Definition integrations_include (request : SkillGenerationRequest) (tag : string) : bool :=
  match integrations request with
  | Some l => existsb (String.eqb tag) l
  | None => false
  end.

Definition solana_block (request : SkillGenerationRequest) : string :=
  if integrations_include request "solana" || integrations_include request "jupiter"
  then "SOLANA REQUIREMENTS:" ++ nl ++ "- Include proper wallet connection handling" ++ nl ++
       "- Use recommended RPC providers" ++ nl ++ "- Include transaction error handling" ++ nl ++
       "- Add slippage and fee considerations" ++ nl ++
       "- Include network selection (mainnet/devnet)" ++ nl
  else "".

Definition buildEnhancedPrompt (request : SkillGenerationRequest) (template : SkillTemplate) : string :=
  JS.join nl [
    "Generate a production-ready " ++ framework request ++ " skill for: " ++
      dq ++ description request ++ dq;
    "";
    "REQUIREMENTS:";
    "- Framework: " ++ framework request;
    "- Features: " ++ JS.join ", " (features request);
    "- Complexity: " ++ request_complexity request;
    "- Integrations: " ++ integrations_text request;
    "";
    "COMPLEXITY GUIDELINES:";
    complexity_section request;
    "";
    "FRAMEWORK SPECIFICS:";
    interp_prop (get_prop frameworkSpecifics (framework request));
    "";
    "MANDATORY REQUIREMENTS:";
    "1. Include complete YAML frontmatter with all metadata";
    "2. Provide comprehensive documentation with examples";
    "3. Include proper error handling and edge cases";
    "4. Add security considerations and best practices";
    "5. Include performance considerations";
    "6. Provide clear installation and usage instructions";
    "7. Include troubleshooting section";
    "8. Add links to relevant documentation";
    "";
    solana_block request;
    "";
    "TEMPLATE STRUCTURE:";
    tpl_content template;
    "";
    "Generate the complete, production-ready skill.md file:"].

(* ------------------------------------------------------------------ *)
(** ** Post-processing of the generated document *)

(** [s.split(c)] for a one-character separator. *)
Fixpoint split_char (c : ascii) (s : string) : list string :=
  match s with
  | EmptyString => [""]
  | String d r =>
      if Ascii.eqb c d then "" :: split_char c r
      else match split_char c r with
           | x :: xs => String d x :: xs
           | [] => [String d ""]
           end
  end.

(** [lines.findIndex((line, i) => i > 0 && line === '---')], as an
    index counted from [i]. *)
Fixpoint findIndex_from (i : nat) (lines : list string) : option nat :=
  match lines with
  | [] => None
  | l :: r => if (0 <? i) && String.eqb l "---" then Some i else findIndex_from (S i) r
  end.

Section PostProcess.

Variable now_iso : string.

Definition features_line (request : SkillGenerationRequest) : string :=
  "features: [" ++ JS.join ", " (map (fun f => dq ++ f ++ dq) (features request)) ++ "]".

Definition postProcessSkillMd (content : string) (request : SkillGenerationRequest) : string :=
  let content := if JS.starts_with "---" content then content else "---" ++ nl ++ content in
  let lines := split_char (ascii_of_nat 10) content in
  match findIndex_from 0 lines with
  | Some k =>
      (* four [lines.splice(frontmatterEnd + j, 0, ...)] calls *)
      let inserted := ["generated_by: AgentForge";
                       "generation_date: " ++ now_iso;
                       "complexity: " ++ request_complexity request;
                       features_line request] in
      JS.join nl (firstn k lines ++ inserted ++ skipn k lines)%list
  | None => JS.join nl lines
  end.

End PostProcess.

(* ------------------------------------------------------------------ *)
(** ** Request validation, Solana config, supporting files *)

(** [validateRequest]: [inl] is the message of the thrown [Error]. *)
Definition validateRequest (request : SkillGenerationRequest) : string + unit :=
  if negb (JS.truthy (JS.trim (description request)))
  then inl "Skill description is required"
  else if negb (existsb (String.eqb (framework request)) ["openclaw"; "langchain"; "autogen"])
  then inl ("Unsupported framework: " ++ framework request)
  else inr tt.

Definition generateSolanaConfig (request : SkillGenerationRequest) : SolanaConfig :=
  let programs :=
    ((if integrations_include request "jupiter"
      then [{| pc_name := "Jupiter V6"; pc_address := "JUP6LkbZbjS1jKKwapdHNy74zcZ3tLUZoi5QNyVTaV4" |}]
      else []) ++
     (if integrations_include request "pyth"
      then [{| pc_name := "Pyth Oracle"; pc_address := "FsJ3A3u2vn5cTVofAjvy6y5kwABJAqYWpe4975bi2epH" |}]
      else []))%list in
  {| network := devnet; programs := programs; tokens := [] |}.

(** [request.integrations?.some(i => ['jupiter', 'pyth', 'metaplex'].includes(i))] *)
Definition wants_solana (request : SkillGenerationRequest) : bool :=
  match integrations request with
  | Some l => existsb (fun i => existsb (String.eqb i) ["jupiter"; "pyth"; "metaplex"]) l
  | None => false
  end.

Definition generateEnhancedCodeFiles (request : SkillGenerationRequest) (metadata : SkillMetadata)
    : list CodeFile := [].

Definition generateEnhancedTestFiles (request : SkillGenerationRequest) (metadata : SkillMetadata)
    : list TestFile := [].

Definition extractEnhancedDependencies (skillMd : string) (codeFiles : list CodeFile)
    (request : SkillGenerationRequest) : list string := [].

(* ------------------------------------------------------------------ *)
(** ** The asynchronous engine: an error-and-state monad *)

(** What the outside world observes: the chat-completion calls issued
    and the files written. *)
Record World := {
  provider_calls : nat;
  written : list (string * string)
}.

Definition M (A : Type) : Type := World -> (string + A) * World.

Definition ret {A} (a : A) : M A := fun w => (inr a, w).
Definition throw {A} (msg : string) : M A := fun w => (inl msg, w).
Definition bind {A B} (m : M A) (k : A -> M B) : M B :=
  fun w => match m w with
           | (inr a, w') => k a w'
           | (inl e, w') => (inl e, w')
           end.
Definition catch {A} (m : M A) (h : string -> M A) : M A :=
  fun w => match m w with
           | (inl e, w') => h e w'
           | ok => ok
           end.
Definition lift {A} (r : string + A) : M A :=
  match r with inl e => throw e | inr a => ret a end.

Notation "'let!' x := m 'in' k" := (bind m (fun x => k))
  (at level 200, x pattern, m at level 100, k at level 200).

Record EngineConfig := {
  openaiApiKey : string;
  solanaRpcUrl : option string;
  outputDir : option string
}.

Record AgentForgeEnhanced := {
  config : EngineConfig;
  templates : gmap string SkillTemplate
}.

(** [new AgentForgeEnhanced(config)] *)
Definition new_AgentForgeEnhanced (cfg : EngineConfig) : AgentForgeEnhanced :=
  {| config := cfg; templates := initial_templates |}.

Section Engine.

(** [this.openai.chat.completions.create({model: "gpt-4", messages:
    [system, user], temperature: 0.2, max_tokens: 4096, top_p: 0.9})]
    for the given system and user contents: a rejection with its
    message, or [response.choices[0].message.content] ([None] is null). *)
Variable openai_create : string -> string -> string + option string.
(** [new Date().toISOString()] *)
Variable now_iso : string.
(** [path.join], [fs.ensureDir], [fs.writeFile] (a rejection message
    or success) and [JSON.stringify(_, null, 2)]. *)
Variable path_join : string -> string -> string.
Variable fs_ensureDir : string -> option string.
Variable fs_writeFile : string -> string -> option string.
Variable json_stringify : SkillMetadata -> string.

Definition openai_call (system user : string) : M (option string) :=
  fun w =>
    let w' := {| provider_calls := S (provider_calls w); written := written w |} in
    match openai_create system user with
    | inl e => (inl e, w')
    | inr c => (inr c, w')
    end.

Definition ensureDir (dir : string) : M unit :=
  fun w => match fs_ensureDir dir with
           | Some e => (inl e, w)
           | None => (inr tt, w)
           end.

Definition writeFile (path contents : string) : M unit :=
  fun w => match fs_writeFile path contents with
           | Some e => (inl e, w)
           | None => (inr tt, {| provider_calls := provider_calls w;
                                 written := (written w ++ [(path, contents)])%list |})
           end.

Fixpoint write_all (dir : string) (files : list (string * string)) : M unit :=
  match files with
  | [] => ret tt
  | (f, c) :: r => let! _ := writeFile (path_join dir f) c in write_all dir r
  end.

Definition system_prompt : string := JS.join nl system_prompt_lines.

Definition generateEnhancedSkillMd (self : AgentForgeEnhanced) (request : SkillGenerationRequest)
    : M string :=
  match templates self !! framework request with
  | None => throw ("Template not found for framework: " ++ framework request)
  | Some template =>
      let enhancedPrompt := buildEnhancedPrompt request template in
      let! content := openai_call system_prompt enhancedPrompt in
      match content with
      | Some c => if JS.truthy c then ret (postProcessSkillMd now_iso c request)
                  else throw "OpenAI returned empty response"
      | None => throw "OpenAI returned empty response"
      end
  end.

Definition saveSkillToDirectory (self : AgentForgeEnhanced) (skill : GeneratedSkill) : M unit :=
  match outputDir (config self) with
  | None => ret tt
  | Some out =>
      if negb (JS.truthy out) then ret tt else
      let skillDir := path_join out (name (metadata skill)) in
      let! _ := ensureDir skillDir in
      let! _ := writeFile (path_join skillDir "SKILL.md") (skillMd skill) in
      let! _ := write_all skillDir (map (fun f => (cf_filename f, cf_content f)) (codeFiles skill)) in
      let! _ := write_all skillDir (map (fun f => (tf_filename f, tf_content f)) (testFiles skill)) in
      writeFile (path_join skillDir "metadata.json") (json_stringify (metadata skill))
  end.

Definition output_dir_set (self : AgentForgeEnhanced) : bool :=
  match outputDir (config self) with Some d => JS.truthy d | None => false end.

Definition generateSkill (self : AgentForgeEnhanced) (request : SkillGenerationRequest)
    : M GeneratedSkill :=
  catch
    (let! _ := lift (validateRequest request) in
     let! skillMd := generateEnhancedSkillMd self request in
     let solanaConfig :=
       if wants_solana request then Some (generateSolanaConfig request) else None in
     let metadata := parseEnhancedMetadata skillMd request in
     let codeFiles := generateEnhancedCodeFiles request metadata in
     let testFiles := generateEnhancedTestFiles request metadata in
     let dependencies := extractEnhancedDependencies skillMd codeFiles request in
     let validationResult :=
       enhancedValidation
         {| skillMd := skillMd; metadata := metadata; codeFiles := codeFiles;
            testFiles := testFiles; dependencies := dependencies;
            validationResult := {| isValid := true; errors := []; warnings := [];
                                   suggestions := []; score := 0; security_score := 0;
                                   performance_score := 0 |};
            solanaConfig := solanaConfig |} in
     let result :=
       {| skillMd := skillMd; metadata := metadata; codeFiles := codeFiles;
          testFiles := testFiles; dependencies := dependencies;
          validationResult := validationResult; solanaConfig := solanaConfig |} in
     let! _ := (if output_dir_set self then saveSkillToDirectory self result else ret tt) in
     ret result)
    (fun msg => throw ("Skill generation failed: " ++ msg)).

End Engine.

(* ================================================================== *)
(** * Properties *)

(** [p] holds of every character of [s]. *)
Fixpoint all_chars (p : ascii -> bool) (s : string) : bool :=
  match s with
  | EmptyString => true
  | String c r => p c && all_chars p r
  end.

(** [c] is not a newline. *)
Definition no_nl : ascii -> bool := fun d => negb (Ascii.eqb (ascii_of_nat 10) d).

Definition slug_char (c : ascii) : bool :=
  JS.is_lower c || JS.is_digit c || Ascii.eqb c "-".

(** ** Sample inputs *)

Definition sample_request : SkillGenerationRequest :=
  {| description := "Weather forecasting skill"; framework := "openclaw";
     features := ["api"]; integrations := None; complexity := None;
     solanaFeatures := None |}.

Definition with_framework (fw : string) : SkillGenerationRequest :=
  {| description := "Weather forecasting skill"; framework := fw;
     features := ["api"]; integrations := None; complexity := None;
     solanaFeatures := None |}.

Definition with_complexity (c : option string) : SkillGenerationRequest :=
  {| description := "Weather forecasting skill"; framework := "openclaw";
     features := ["api"]; integrations := None; complexity := c;
     solanaFeatures := None |}.

Definition blank_request : SkillGenerationRequest :=
  {| description := "   "; framework := "openclaw"; features := [];
     integrations := None; complexity := None; solanaFeatures := None |}.

Definition sample_engine : AgentForgeEnhanced :=
  new_AgentForgeEnhanced {| openaiApiKey := "sk-test"; solanaRpcUrl := None; outputDir := None |}.

(** A provider that answers every prompt with the OpenClaw template. *)
Definition echo_template_provider (system user : string) : string + option string :=
  inr (Some (tpl_content openclaw_template)).

Definition world0 : World := {| provider_calls := 0; written := [] |}.

Definition run_sample (provider : string -> string -> string + option string)
    (request : SkillGenerationRequest) : (string + GeneratedSkill) * World :=
  generateSkill provider "2026-01-01T00:00:00.000Z" (fun a b => a ++ "/" ++ b)
    (fun _ => None) (fun _ _ => None) (fun _ => "{}") sample_engine request world0.

Definition code_file (content : string) : CodeFile :=
  {| cf_filename := "index.js"; cf_content := content;
     cf_type := ct_javascript; cf_purpose := cp_main |}.

(** A record as it reaches [enhancedValidation] from [generateSkill]. *)
Definition skill_for_validation (md : string) (files : list CodeFile) : GeneratedSkill :=
  {| skillMd := md; metadata := parseEnhancedMetadata md sample_request;
     codeFiles := files; testFiles := []; dependencies := [];
     validationResult := {| isValid := true; errors := []; warnings := [];
                            suggestions := []; score := 0; security_score := 0;
                            performance_score := 0 |};
     solanaConfig := None |}.

(** The same record with one more code file at the end. *)
Definition add_code_file (skill : GeneratedSkill) (f : CodeFile) : GeneratedSkill :=
  {| skillMd := skillMd skill; metadata := metadata skill;
     codeFiles := (codeFiles skill ++ [f])%list; testFiles := testFiles skill;
     dependencies := dependencies skill; validationResult := validationResult skill;
     solanaConfig := solanaConfig skill |}.

(** A document using an environment variable inside a try/catch. *)
Definition env_only_skill : GeneratedSkill :=
  skill_for_validation
    ("---" ++ nl ++ "name: env-skill" ++ nl ++ "---" ++ nl ++
     "try { connect(process.env.API_KEY) } catch (e) {}") [].


(** A document with a frontmatter, a name and error handling. *)
Definition clean_skill : GeneratedSkill :=
  skill_for_validation
    ("---" ++ nl ++ "name: clean-skill" ++ nl ++ "---" ++ nl ++ "try { run() } catch (e) {}") [].

(** An engine configured with an output directory. *)
Definition sample_out_engine : AgentForgeEnhanced :=
  new_AgentForgeEnhanced {| openaiApiKey := "sk-test"; solanaRpcUrl := None;
                            outputDir := Some "skills" |}.

(** A provider whose completion has empty content, and one that
    rejects. *)
Definition empty_provider (system user : string) : string + option string := inr (Some "").
Definition rejecting_provider (system user : string) : string + option string :=
  inl "Rate limit exceeded".

Definition run_with (provider : string -> string -> string + option string)
    (ensure : string -> option string) (self : AgentForgeEnhanced)
    (request : SkillGenerationRequest) : (string + GeneratedSkill) * World :=
  generateSkill provider "2026-01-01T00:00:00.000Z" (fun a b => a ++ "/" ++ b)
    ensure (fun _ _ => None) (fun _ => "{}") self request world0.

(** A request naming the metaplex integration only. *)
Definition metaplex_request : SkillGenerationRequest :=
  {| description := "NFT minting helper"; framework := "openclaw";
     features := ["mint"]; integrations := Some ["metaplex"]; complexity := None;
     solanaFeatures := None |}.

Lemma strip_non_slug_chars (s : string) :
  all_chars (fun c => JS.is_lower c || JS.is_digit c || JS.is_space c) (strip_non_slug s) = true.
Proof.
  induction s as [|c r IH]; simpl; [reflexivity|].
  destruct (JS.is_lower c || JS.is_digit c || JS.is_space c) eqn:Hc; simpl;
    [rewrite Hc|]; assumption.
Qed.

Lemma hyphenate_runs_chars (s : string) (b : bool) :
  all_chars (fun c => JS.is_lower c || JS.is_digit c || JS.is_space c) s = true ->
  all_chars slug_char (hyphenate_runs b s) = true.
Proof.
  revert b; induction s as [|c r IH]; intros b H; simpl in *; [reflexivity|].
  apply andb_prop in H as [Hc Hr].
  destruct (JS.is_space c) eqn:Hs.
  - destruct b; simpl; [|rewrite IH by exact Hr]; auto.
  - simpl. rewrite IH by exact Hr. unfold slug_char.
    rewrite orb_false_r in Hc. rewrite Hc. reflexivity.
Qed.

Lemma substring_all_chars (p : ascii -> bool) (n m : nat) (s : string) :
  all_chars p s = true -> all_chars p (String.substring n m s) = true.
Proof.
  revert n m; induction s as [|c r IH]; intros n m H; destruct n, m; simpl in *; auto;
    apply andb_prop in H as [Hc Hr]; try rewrite Hc; simpl; apply IH; exact Hr.
Qed.

Lemma substring0_length (m : nat) (s : string) :
  String.length (String.substring 0 m s) <= m.
Proof.
  revert s; induction m as [|m IH]; intros s; destruct s; simpl; try lia.
  specialize (IH s). lia.
Qed.

(** C8: [generateSkillName] is a function of its argument alone; every
    character of its result is a lowercase ASCII letter, a digit or a
    hyphen, and the result has at most 50 characters. *)
Theorem generateSkillName_slug (description : string) :
  all_chars slug_char (generateSkillName description) = true /\
  String.length (generateSkillName description) <= 50.
Proof.
  unfold generateSkillName, JS.substring0. split.
  - apply substring_all_chars, hyphenate_runs_chars, strip_non_slug_chars.
  - apply substring0_length.
Qed.

Lemma or_default_empty (a : option string) (d : string) :
  JS.or_default a "" = "" -> JS.or_default a d = d.
Proof. destruct a as [[|c r]|]; simpl; congruence. Qed.

(** C6: [parseEnhancedMetadata] always returns a metadata record (its
    [try] failure is caught), with the fixed author, the tags
    [generated], [agentforge] and the features, and the summary block;
    without a frontmatter block the name is the slug of the request
    description, the description is the request description and the
    version is 1.0.0; inside a frontmatter block, each missing or blank
    field takes the same default. *)
Theorem parseEnhancedMetadata_total (skillMd : string) (request : SkillGenerationRequest) :
  let m := parseEnhancedMetadata skillMd request in
  author m = "AgentForge" /\
  tags m = ("generated" :: "agentforge" :: features request)%list /\
  agentforge m = Some {| generated := true; quality_score := 0%Z;
                         af_complexity := request_complexity request;
                         af_features := features request |} /\
  (Frontmatter.frontmatterMatch skillMd = None ->
     name m = generateSkillName (description request) /\
     md_description m = description request /\ version m = "1.0.0") /\
  (forall frontmatter, Frontmatter.frontmatterMatch skillMd = Some frontmatter ->
     (Frontmatter.parseField frontmatter "name" "" = "" ->
        name m = generateSkillName (description request)) /\
     (Frontmatter.parseField frontmatter "description" "" = "" ->
        md_description m = description request) /\
     (Frontmatter.parseField frontmatter "version" "" = "" -> version m = "1.0.0")).
Proof.
  unfold parseEnhancedMetadata, parseEnhancedMetadata_try.
  destruct (Frontmatter.frontmatterMatch skillMd) as [fm|] eqn:Hfm; simpl.
  - split; [reflexivity|]. split; [reflexivity|]. split; [reflexivity|].
    split; [discriminate|].
    intros fm' Heq; injection Heq as <-.
    split; [|split]; intros H; simpl.
    + rewrite H; reflexivity.
    + rewrite H; reflexivity.
    + unfold Frontmatter.parseField in *. apply or_default_empty; exact H.
  - split; [reflexivity|]. split; [reflexivity|]. split; [reflexivity|].
    split; [intros _; repeat split|intros; discriminate].
Qed.

Lemma parseEnhancedMetadata_total_witness :
  Frontmatter.frontmatterMatch "" = None /\
  name (parseEnhancedMetadata "" sample_request) = "weather-forecasting-skill".
Proof.
  split; [reflexivity|].
  destruct (parseEnhancedMetadata_total "" sample_request) as (_ & _ & _ & H & _).
  rewrite (proj1 (H eq_refl)). vm_compute. reflexivity.
Defined.

Lemma truthy_false (s : string) : JS.truthy s = false <-> s = "".
Proof. destruct s; simpl; split; congruence. Qed.

Lemma existsb_eqb_In (x : string) (l : list string) :
  existsb (String.eqb x) l = true <-> In x l.
Proof.
  rewrite existsb_exists. split.
  - intros (y & Hy & Heq). apply String.eqb_eq in Heq. subst; exact Hy.
  - intros H. exists x. split; [exact H | apply String.eqb_refl].
Qed.

(** C7: [validateRequest] throws exactly when the trimmed description
    is empty or the framework is not openclaw, langchain or autogen; it
    reads no other field; and when it throws, [generateSkill] rejects
    with the wrapped message and leaves the world untouched, so no
    chat-completion call is issued. *)
Theorem validateRequest_contract (request : SkillGenerationRequest) :
  ((exists msg, validateRequest request = inl msg) <->
     JS.trim (description request) = "" \/
     ~ In (framework request) ["openclaw"; "langchain"; "autogen"]) /\
  (forall other, description other = description request ->
     framework other = framework request -> validateRequest other = validateRequest request) /\
  (forall openai_create now_iso path_join fs_ensureDir fs_writeFile json_stringify self msg w,
     validateRequest request = inl msg ->
     generateSkill openai_create now_iso path_join fs_ensureDir fs_writeFile json_stringify
       self request w = (inl ("Skill generation failed: " ++ msg), w)).
Proof.
  split; [|split].
  - unfold validateRequest.
    destruct (JS.truthy (JS.trim (description request))) eqn:Ht;
      destruct (existsb (String.eqb (framework request)) ["openclaw"; "langchain"; "autogen"]) eqn:He;
      cbn [negb].
    + split; [intros [msg Hm]; discriminate|].
      intros [H|H].
      * rewrite H in Ht; discriminate.
      * exfalso; apply H, existsb_eqb_In; exact He.
    + split; [intros _; right|intros _; eexists; reflexivity].
      intros Hin. apply existsb_eqb_In in Hin. congruence.
    + split; [intros _; left; apply truthy_false; exact Ht|intros _; eexists; reflexivity].
    + split; [intros _; left; apply truthy_false; exact Ht|intros _; eexists; reflexivity].
  - intros other Hd Hf. unfold validateRequest. rewrite Hd, Hf. reflexivity.
  - intros openai_create now_iso path_join fs_ensureDir fs_writeFile json_stringify self msg w H.
    unfold generateSkill, catch, bind, lift. rewrite H. reflexivity.
Qed.

Lemma validateRequest_contract_witness :
  validateRequest blank_request = inl "Skill description is required" /\
  run_sample echo_template_provider blank_request =
    (inl "Skill generation failed: Skill description is required", world0).
Proof.
  split; [reflexivity|].
  apply (proj2 (proj2 (validateRequest_contract blank_request))). reflexivity.
Defined.

(** C10: the code-file and test-file generators return the empty list
    for every request and metadata, so every record [generateSkill]
    produces has empty [codeFiles] and [testFiles]. *)
Theorem supporting_files_empty :
  (forall request metadata,
     generateEnhancedCodeFiles request metadata = [] /\
     generateEnhancedTestFiles request metadata = []) /\
  (forall openai_create now_iso path_join fs_ensureDir fs_writeFile json_stringify
          self request w g w',
     generateSkill openai_create now_iso path_join fs_ensureDir fs_writeFile json_stringify
       self request w = (inr g, w') ->
     codeFiles g = [] /\ testFiles g = []).
Proof.
  split; [intros; split; reflexivity|].
  intros openai_create now_iso path_join fs_ensureDir fs_writeFile json_stringify
         self request w g w' H.
  unfold generateSkill, catch, bind, lift, ret, throw in H.
  destruct (validateRequest request); [discriminate|].
  destruct (generateEnhancedSkillMd _ _ _ _ _) as [[e|md] w1]; [discriminate|].
  destruct (output_dir_set self);
    [destruct (saveSkillToDirectory _ _ _ _ _ _ _) as [[e|[]] w2]|];
    try discriminate; injection H as <- _; split; reflexivity.
Qed.

Lemma supporting_files_empty_witness :
  match run_sample echo_template_provider sample_request with
  | (inr g, _) => codeFiles g = [] /\ testFiles g = []
  | (inl _, _) => False
  end.
Proof.
  destruct (run_sample echo_template_provider sample_request) as [[e|g] w'] eqn:E.
  - vm_compute in E. discriminate.
  - unfold run_sample in E. exact (proj2 supporting_files_empty _ _ _ _ _ _ _ _ _ _ _ E).
Defined.

(* ------------------------------------------------------------------ *)
(** ** The security pass only gains matches when text is appended *)

(* stdpp's strings make [String.append] opaque to [simpl]; the
   proofs below unfold it. *)
#[local] Arguments String.append : simpl nomatch.

Lemma append_assoc_str (a b c : string) : (a ++ b) ++ c = a ++ (b ++ c).
Proof. induction a as [|x r IH]; simpl; [reflexivity|rewrite IH; reflexivity]. Qed.

Lemma append_empty_r (a : string) : a ++ "" = a.
Proof. induction a as [|x r IH]; simpl; [reflexivity|rewrite IH; reflexivity]. Qed.

Lemma starts_with_app (p s b : string) :
  JS.starts_with p s = true -> JS.starts_with p (s ++ b) = true.
Proof.
  revert s; induction p as [|x p IH]; intros s H; [reflexivity|].
  destruct s as [|y s]; simpl in *; [discriminate|].
  apply andb_prop in H as [Hx Hp]. rewrite Hx, (IH s Hp). reflexivity.
Qed.

Lemma starts_with_length (p s : string) :
  JS.starts_with p s = true -> String.length p <= String.length s.
Proof.
  revert s; induction p as [|x p IH]; intros s H; simpl; [lia|].
  destruct s as [|y s]; simpl in *; [discriminate|].
  apply andb_prop in H as [_ Hp]. specialize (IH s Hp). lia.
Qed.

Lemma drop_app (n : nat) (s b : string) :
  n <= String.length s -> Regex.drop n (s ++ b) = Regex.drop n s ++ b.
Proof.
  revert s; induction n as [|n IH]; intros s H; [reflexivity|].
  destruct s as [|c s]; simpl in *; [lia|]. apply IH; lia.
Qed.

Lemma after_app (p s b : string) :
  JS.starts_with p s = true -> Regex.after p (s ++ b) = Regex.after p s ++ b.
Proof. intros H. apply drop_app, starts_with_length, H. Qed.

Lemma drop_spaces_app (x b : string) :
  JS.drop_spaces x <> "" -> JS.drop_spaces (x ++ b) = JS.drop_spaces x ++ b.
Proof.
  induction x as [|c r IH]; simpl; intros H; [congruence|].
  destruct (JS.is_space c); [apply IH, H|reflexivity].
Qed.

(** A matcher is stable when every match survives appending text. *)
Lemma lit_spaces_char_app (lit c s b : string) :
  c <> "" -> Regex.lit_spaces_char lit c s = true ->
  Regex.lit_spaces_char lit c (s ++ b) = true.
Proof.
  unfold Regex.lit_spaces_char. intros Hc H.
  apply andb_prop in H as [Hl Hs].
  rewrite (starts_with_app _ _ _ Hl), (after_app _ _ _ Hl). simpl.
  rewrite drop_spaces_app.
  - apply starts_with_app, Hs.
  - intros E. rewrite E in Hs. destruct c; simpl in Hs; congruence.
Qed.

Lemma process_env_app (s b : string) :
  Regex.process_env s = true -> Regex.process_env (s ++ b) = true.
Proof.
  unfold Regex.process_env. intros H.
  apply andb_prop in H as [Hl Hw].
  rewrite (starts_with_app _ _ _ Hl), (after_app _ _ _ Hl). simpl.
  destruct (Regex.after "process.env." s); [discriminate|exact Hw].
Qed.

Lemma test_head (m : string -> bool) (s : string) : m s = true -> Regex.test m s = true.
Proof. destruct s; simpl; intros H; rewrite H; reflexivity. Qed.

Lemma test_app (m : string -> bool) (a b : string) :
  (forall s t, m s = true -> m (s ++ t) = true) ->
  Regex.test m a = true -> Regex.test m (a ++ b) = true.
Proof.
  intros Hm. induction a as [|c r IH]; simpl; intros H.
  - apply test_head. exact (Hm "" b H).
  - apply orb_prop in H as [H|H].
    + pose proof (Hm (String c r) b H) as H'. simpl in H'. rewrite H'. reflexivity.
    + rewrite (IH H). apply orb_true_r.
Qed.

Lemma pattern_app (p : DangerousPattern) (a b : string) :
  In p dangerousPatterns ->
  Regex.test (pattern p) a = true -> Regex.test (pattern p) (a ++ b) = true.
Proof.
  intros Hin. apply test_app. intros s t.
  simpl in Hin; repeat destruct Hin as [<-|Hin]; try contradiction; simpl.
  - apply lit_spaces_char_app; discriminate.
  - apply lit_spaces_char_app; discriminate.
  - apply lit_spaces_char_app; discriminate.
  - apply process_env_app.
Qed.

Lemma includes_is_test (s p : string) : JS.includes s p = Regex.test (JS.starts_with p) s.
Proof. induction s as [|c r IH]; simpl; [reflexivity|rewrite IH; reflexivity]. Qed.

Lemma includes_app (a b p : string) : JS.includes a p = true -> JS.includes (a ++ b) p = true.
Proof.
  rewrite !includes_is_test. apply test_app. intros s t. apply starts_with_app.
Qed.

Lemma deductions_nonneg (p : DangerousPattern) : In p dangerousPatterns -> (0 <= deduction p)%Z.
Proof. simpl; intros H; repeat destruct H as [<-|H]; try contradiction; simpl; lia. Qed.

Lemma fold_security_mono (c1 c2 : string) (ps : list DangerousPattern) (acc1 acc2 : list string * Z) :
  (forall p, In p ps -> (0 <= deduction p)%Z) ->
  (forall p, In p ps -> Regex.test (pattern p) c1 = true -> Regex.test (pattern p) c2 = true) ->
  (snd acc1 <= snd acc2)%Z ->
  (snd (fold_left (security_step c1) ps acc1) <= snd (fold_left (security_step c2) ps acc2))%Z.
Proof.
  revert acc1 acc2; induction ps as [|p ps IH]; intros acc1 acc2 Hd Ht Hacc; simpl; [exact Hacc|].
  apply IH; [intros; apply Hd; right; assumption|intros; apply Ht; [right|]; assumption|].
  unfold security_step.
  specialize (Hd p (or_introl eq_refl)). specialize (Ht p (or_introl eq_refl)).
  destruct (Regex.test (pattern p) c1), (Regex.test (pattern p) c2); simpl;
    try lia; discriminate (Ht eq_refl).
Qed.

Lemma sec_deduction_eq (md : string) (files : list CodeFile) :
  let c := allContent md files in
  sec_scoreDeduction (validateSecurity md files) =
  (snd (fold_left (security_step c) dangerousPatterns ([], 0%Z)) +
   if negb (JS.includes c "try") && negb (JS.includes c "catch") then 10 else 0)%Z.
Proof.
  unfold validateSecurity. cbv zeta.
  destruct (fold_left (security_step (allContent md files)) dangerousPatterns ([], 0%Z)) as [cr d].
  cbn [fst snd sec_scoreDeduction].
  destruct (negb _ && negb _); cbn [sec_scoreDeduction]; lia.
Qed.

Lemma join_cons (sep a y : string) (ys : list string) :
  JS.join sep (a :: y :: ys) = a ++ sep ++ JS.join sep (y :: ys).
Proof. reflexivity. Qed.

Lemma join_snoc (sep x : string) (l : list string) :
  JS.join sep (l ++ [x])%list = match l with [] => x | _ => JS.join sep l ++ sep ++ x end.
Proof.
  induction l as [|a [|b r] IH]; [reflexivity|reflexivity|].
  change ((b :: r) ++ [x])%list with (b :: (r ++ [x]))%list in IH.
  change ((a :: b :: r) ++ [x])%list with (a :: b :: (r ++ [x]))%list.
  rewrite join_cons, IH, join_cons, !append_assoc_str. reflexivity.
Qed.

Lemma allContent_snoc (md : string) (files : list CodeFile) (f : CodeFile) :
  exists sep, allContent md (files ++ [f])%list = allContent md files ++ sep ++ cf_content f.
Proof.
  unfold allContent. rewrite map_app. simpl. rewrite join_snoc.
  destruct (map cf_content files) as [|x r] eqn:E.
  - exists "". rewrite append_empty_r. reflexivity.
  - exists nl. rewrite !append_assoc_str. reflexivity.
Qed.

Lemma fold_security_ge (c : string) (ps : list DangerousPattern) (acc : list string * Z) :
  (forall p, In p ps -> (0 <= deduction p)%Z) ->
  (snd acc <= snd (fold_left (security_step c) ps acc))%Z.
Proof.
  revert acc; induction ps as [|p ps IH]; intros acc Hd; simpl; [lia|].
  specialize (IH (security_step c acc p) (fun q Hq => Hd q (or_intror Hq))).
  specialize (Hd p (or_introl eq_refl)).
  unfold security_step in *. destruct (Regex.test (pattern p) c); simpl in *; lia.
Qed.

Lemma enhancedValidation_fields (skill : GeneratedSkill) :
  let sec := validateSecurity (skillMd skill) (codeFiles skill) in
  let perf := validatePerformance (skillMd skill) (codeFiles skill) in
  (exists e1 q1, (65 <= q1 <= 100)%Z /\
     errors (enhancedValidation skill) = (e1 ++ critical sec)%list /\
     score (enhancedValidation skill) = Z.max 0 (q1 + bonus (validateDocumentation (skillMd skill)))) /\
  isValid (enhancedValidation skill) = Nat.eqb (length (errors (enhancedValidation skill))) 0 /\
  warnings (enhancedValidation skill) = (sec_warnings sec ++ perf_warnings perf)%list /\
  security_score (enhancedValidation skill) = Z.max 0 (100 - sec_scoreDeduction sec) /\
  performance_score (enhancedValidation skill) = Z.max 0 (100 - perf_scoreDeduction perf).
Proof.
  unfold enhancedValidation. cbv zeta.
  destruct (negb (JS.includes (skillMd skill) "---")), (negb (JS.truthy (name (metadata skill))));
    cbv delta [isValid errors warnings score security_score performance_score] beta iota;
    (split; [eexists; eexists; split; [|split; reflexivity]; lia|]); repeat split.
Qed.

Lemma sec_deduction_nonneg (md : string) (files : list CodeFile) :
  (0 <= sec_scoreDeduction (validateSecurity md files))%Z.
Proof.
  rewrite sec_deduction_eq. cbv zeta.
  pose proof (fold_security_ge (allContent md files) dangerousPatterns ([], 0%Z) deductions_nonneg).
  change (snd (([] : list string), 0%Z)) with 0%Z in H.
  destruct (negb _ && negb _); lia.
Qed.

Lemma perf_deduction_range (md : string) (files : list CodeFile) :
  (0 <= perf_scoreDeduction (validatePerformance md files) <= 10)%Z.
Proof.
  unfold validatePerformance. cbv zeta.
  destruct (JS.includes _ "setInterval" && negb _); cbn [perf_scoreDeduction]; lia.
Qed.

Lemma doc_bonus_range (md : string) : (0 <= bonus (validateDocumentation md) <= 16)%Z.
Proof.
  unfold validateDocumentation. cbn [bonus].
  destruct (_ || _), (JS.includes md "## Installation"), (_ || _), (JS.includes md "```"); lia.
Qed.

(** The ranges the three scores of [enhancedValidation] really have:
    security and performance in [0,100], quality in [0,116]. *)
Lemma enhancedValidation_ranges (skill : GeneratedSkill) :
  (0 <= security_score (enhancedValidation skill) <= 100)%Z /\
  (0 <= performance_score (enhancedValidation skill) <= 100)%Z /\
  (0 <= score (enhancedValidation skill) <= 116)%Z.
Proof.
  destruct (enhancedValidation_fields skill) as ((e1 & q1 & Hq & _ & Hs) & _ & _ & Hsec & Hperf).
  rewrite Hsec, Hperf, Hs.
  pose proof (sec_deduction_nonneg (skillMd skill) (codeFiles skill)).
  pose proof (perf_deduction_range (skillMd skill) (codeFiles skill)).
  pose proof (doc_bonus_range (skillMd skill)). lia.
Qed.

(** C1 (code defect): the quality score is only clamped from below.
    When the provider returns the OpenClaw template itself, the document
    earns all four documentation bonuses and [generateSkill] reports a
    quality score of 116, although [ValidationResult.score] is
    documented as a 0-100 score; security and performance stay in range. *)
Theorem quality_score_exceeds_100 :
  score (enhancedValidation (skill_for_validation (tpl_content openclaw_template) [])) = 116%Z /\
  match run_sample echo_template_provider sample_request with
  | (inr g, _) => score (validationResult g) = 116%Z /\ security_score (validationResult g) = 90%Z
  | (inl _, _) => False
  end.
Proof. split; vm_compute; [reflexivity|split; reflexivity]. Qed.

Lemma initial_templates_lookup (fw : string) :
  initial_templates !! fw = if String.eqb fw "openclaw" then Some openclaw_template else None.
Proof.
  unfold initial_templates, initializeEnhancedTemplates.
  destruct (String.eqb_spec fw "openclaw") as [->|Hne].
  - apply lookup_insert_eq.
  - rewrite lookup_insert_ne by congruence. apply lookup_empty.
Qed.

(** C2 (code bug): the registry built by the constructor holds exactly
    one template, the OpenClaw one, although [validateRequest] accepts
    langchain and autogen; for a valid request whose framework is
    langchain or autogen, [generateSkill] rejects with
    [Template not found for framework: <framework>] before any
    chat-completion call, whatever the configuration. *)
Theorem template_registry_openclaw_only :
  (forall fw, initial_templates !! fw =
              if String.eqb fw "openclaw" then Some openclaw_template else None) /\
  (forall openai_create now_iso path_join fs_ensureDir fs_writeFile json_stringify cfg request w,
     framework request = "langchain" \/ framework request = "autogen" ->
     validateRequest request = inr tt ->
     generateSkill openai_create now_iso path_join fs_ensureDir fs_writeFile json_stringify
       (new_AgentForgeEnhanced cfg) request w =
     (inl ("Skill generation failed: Template not found for framework: " ++ framework request), w)).
Proof.
  split; [exact initial_templates_lookup|].
  intros openai_create now_iso path_join fs_ensureDir fs_writeFile json_stringify cfg request w
         Hfw Hv.
  unfold generateSkill, catch, bind, lift. rewrite Hv.
  unfold generateEnhancedSkillMd. cbn [templates new_AgentForgeEnhanced].
  rewrite initial_templates_lookup.
  destruct Hfw as [-> | ->]; reflexivity.
Qed.

Lemma template_registry_openclaw_only_witness :
  run_sample echo_template_provider (with_framework "autogen") =
    (inl "Skill generation failed: Template not found for framework: autogen", world0).
Proof.
  apply (proj2 template_registry_openclaw_only); [right; reflexivity|reflexivity].
Defined.




(** C9 (counterexample): adding one code file holding one occurrence of
    the environment-variable pattern, [process.env.retry], raises the
    security score from 90 to 95: the new text contains [try], which
    lifts the 10-point missing-error-handling deduction while the
    pattern costs only 5. *)
Lemma security_score_not_monotone :
  security_score (enhancedValidation (skill_for_validation "" [])) = 90%Z /\
  security_score (enhancedValidation
    (add_code_file (skill_for_validation "" []) (code_file "process.env.retry"))) = 95%Z.
Proof. split; vm_compute; reflexivity. Qed.

(** C9 (amended): appending a code file never raises the security
    score unless it makes [try] or [catch] appear in the combined text
    for the first time. *)
Theorem security_score_append_monotone (skill : GeneratedSkill) (f : CodeFile) :
  let c := allContent (skillMd skill) (codeFiles skill) in
  let c' := allContent (skillMd skill) (codeFiles skill ++ [f])%list in
  (JS.includes c' "try" || JS.includes c' "catch" = true ->
   JS.includes c "try" || JS.includes c "catch" = true) ->
  (security_score (enhancedValidation (add_code_file skill f)) <=
   security_score (enhancedValidation skill))%Z.
Proof.
  cbv zeta. intros Hvocab.
  destruct (enhancedValidation_fields skill) as (_ & _ & _ & Hs & _).
  destruct (enhancedValidation_fields (add_code_file skill f)) as (_ & _ & _ & Hs' & _).
  rewrite Hs, Hs'. cbn [skillMd codeFiles add_code_file].
  rewrite !sec_deduction_eq. cbv zeta.
  destruct (allContent_snoc (skillMd skill) (codeFiles skill) f) as [sep Hsnoc].
  rewrite Hsnoc in Hvocab |- *.
  set (c := allContent (skillMd skill) (codeFiles skill)) in *.
  pose proof (fold_security_mono c (c ++ sep ++ cf_content f) dangerousPatterns ([], 0%Z) ([], 0%Z)
                deductions_nonneg (fun p Hp => pattern_app p c (sep ++ cf_content f) Hp)
                (Z.le_refl _)) as Hmono.
  pose proof (includes_app c (sep ++ cf_content f) "try") as Htry.
  pose proof (includes_app c (sep ++ cf_content f) "catch") as Hcatch.
  set (d := snd (fold_left (security_step c) dangerousPatterns ([], 0%Z))) in *.
  set (d' := snd (fold_left (security_step (c ++ sep ++ cf_content f)) dangerousPatterns
                            ([], 0%Z))) in *.
  change (snd (([] : list string), 0%Z)) with 0%Z in Hmono.
  destruct (JS.includes c "try"), (JS.includes c "catch"),
           (JS.includes (c ++ sep ++ cf_content f) "try"),
           (JS.includes (c ++ sep ++ cf_content f) "catch");
    cbn [negb andb orb] in *; try lia;
    first [discriminate (Htry eq_refl) | discriminate (Hcatch eq_refl)
          | discriminate (Hvocab eq_refl)].
Qed.

Lemma security_score_append_monotone_witness :
  (security_score (enhancedValidation
     (add_code_file (skill_for_validation "try { run() } catch (e) {}" []) (code_file "eval(input)")))
   <= security_score (enhancedValidation (skill_for_validation "try { run() } catch (e) {}" [])))%Z.
Proof. apply security_score_append_monotone. vm_compute. intros H; exact H. Defined.

Lemma critical_eq (md : string) (files : list CodeFile) :
  critical (validateSecurity md files) =
  fst (fold_left (security_step (allContent md files)) dangerousPatterns ([], 0%Z)).
Proof.
  unfold validateSecurity. cbv zeta.
  destruct (fold_left (security_step (allContent md files)) dangerousPatterns ([], 0%Z)) as [cr d].
  destruct (negb _ && negb _); reflexivity.
Qed.

Lemma sec_warnings_cases (md : string) (files : list CodeFile) :
  forall x, In x (sec_warnings (validateSecurity md files)) -> x = "No error handling detected".
Proof.
  unfold validateSecurity. cbv zeta.
  destruct (fold_left (security_step (allContent md files)) dangerousPatterns ([], 0%Z)) as [cr d].
  destruct (negb _ && negb _); cbn [sec_warnings In]; intros x H; intuition.
Qed.

Lemma perf_warnings_cases (md : string) (files : list CodeFile) :
  forall x, In x (perf_warnings (validatePerformance md files)) ->
  x = "setInterval without clearInterval - potential memory leak".
Proof.
  unfold validatePerformance. cbv zeta.
  destruct (JS.includes _ "setInterval" && negb _); cbn [perf_warnings In]; intros x H; intuition.
Qed.

(** C4 (counterexample): a document that uses [process.env.API_KEY]
    inside a try/catch yields no warning at all, the environment finding
    is the only error, and [isValid] is false. *)
Lemma env_usage_counterexample :
  errors (enhancedValidation env_only_skill) = ["Environment variable usage without validation"] /\
  warnings (enhancedValidation env_only_skill) = [] /\
  isValid (enhancedValidation env_only_skill) = false.
Proof. split; [|split]; vm_compute; reflexivity. Qed.

(** C4 (amended): whenever the combined text matches
    [process\.env\.\w+], the finding is pushed onto [critical]: it is
    among the errors and not among the warnings, and [isValid] is
    false. *)
Theorem env_usage_is_blocking (skill : GeneratedSkill) :
  Regex.test Regex.process_env (allContent (skillMd skill) (codeFiles skill)) = true ->
  In "Environment variable usage without validation" (errors (enhancedValidation skill)) /\
  ~ In "Environment variable usage without validation" (warnings (enhancedValidation skill)) /\
  isValid (enhancedValidation skill) = false.
Proof.
  intros Henv.
  destruct (enhancedValidation_fields skill) as ((e1 & _ & _ & He & _) & Hv & Hw & _).
  assert (Hin : In "Environment variable usage without validation" (errors (enhancedValidation skill))).
  { rewrite He, critical_eq. apply in_or_app. right.
    unfold dangerousPatterns. cbn [fold_left].
    set (acc := security_step _ (security_step _ (security_step _ ([], 0%Z) _) _) _).
    unfold security_step at 1. cbn [pattern message]. rewrite Henv.
    cbn [fst]. apply in_or_app. right. left. reflexivity. }
  split; [exact Hin|split].
  - rewrite Hw. intros H. apply in_app_or in H as [H|H].
    + apply sec_warnings_cases in H. discriminate.
    + apply perf_warnings_cases in H. discriminate.
  - rewrite Hv. destruct (errors (enhancedValidation skill)); [contradiction|reflexivity].
Qed.

Lemma env_usage_is_blocking_witness :
  isValid (enhancedValidation env_only_skill) = false.
Proof. apply (env_usage_is_blocking env_only_skill). vm_compute. reflexivity. Defined.

Lemma includes_app_r (a b p : string) : JS.includes b p = true -> JS.includes (a ++ b) p = true.
Proof.
  induction a as [|x r IH]; simpl; intros H; [exact H|].
  rewrite (IH H). apply orb_true_r.
Qed.

Lemma includes_starts (s p : string) : JS.starts_with p s = true -> JS.includes s p = true.
Proof. destruct s; simpl; intros H; rewrite H; reflexivity. Qed.

Lemma starts_with_refl_app (a b : string) : JS.starts_with a (a ++ b) = true.
Proof. induction a as [|x r IH]; simpl; [reflexivity|rewrite Ascii.eqb_refl; exact IH]. Qed.

Lemma starts_with_app_same (a p s : string) :
  JS.starts_with (a ++ p) (a ++ s) = JS.starts_with p s.
Proof. induction a as [|x r IH]; simpl; [reflexivity|rewrite Ascii.eqb_refl; exact IH]. Qed.

Lemma get_prop_guidelines_other (c : string) :
  ~ In c ["simple"; "intermediate"; "advanced"; "__proto__"] ->
  ~ In c object_prototype_methods ->
  get_prop complexityGuidelines c = None.
Proof.
  intros Hk Hp. unfold get_prop, complexityGuidelines.
  rewrite !lookup_insert_ne, lookup_empty by (intros E; apply Hk; subst; simpl; tauto).
  destruct (existsb (String.eqb c) object_prototype_methods) eqn:E.
  - apply existsb_eqb_In in E. contradiction.
  - destruct (String.eqb_spec c "__proto__") as [->|_]; [exfalso; apply Hk; simpl; tauto|reflexivity].
Qed.

(** C5 (counterexample): for the complexity value [expert] the
    complexity-guidelines section of the prompt reads [undefined], and
    the intermediate guideline appears nowhere in the prompt. *)
Lemma complexity_fallback_counterexample :
  complexity_section (with_complexity (Some "expert")) = "undefined" /\
  JS.includes (buildEnhancedPrompt (with_complexity (Some "expert")) openclaw_template)
              intermediate_guideline = false.
Proof. split; vm_compute; reflexivity. Qed.

(** C5 (amended): the section is the intermediate guideline when
    complexity is absent, empty or [intermediate], the simple and
    advanced guidelines for [simple] and [advanced], and the text
    [undefined] for any other value that is not a property name of
    [Object.prototype]; the prompt always carries the section right
    after its heading. *)
Theorem complexity_section_selection (request : SkillGenerationRequest) (template : SkillTemplate) :
  (complexity request = None \/ complexity request = Some "" \/
   complexity request = Some "intermediate" -> complexity_section request = intermediate_guideline) /\
  (complexity request = Some "simple" -> complexity_section request = simple_guideline) /\
  (complexity request = Some "advanced" -> complexity_section request = advanced_guideline) /\
  (forall c, complexity request = Some c -> c <> "" ->
     ~ In c ["simple"; "intermediate"; "advanced"; "__proto__"] ->
     ~ In c object_prototype_methods ->
     complexity_section request = "undefined") /\
  JS.includes (buildEnhancedPrompt request template)
    ("COMPLEXITY GUIDELINES:" ++ nl ++ complexity_section request ++ nl) = true.
Proof.
  unfold complexity_section, request_complexity.
  split; [|split; [|split; [|split]]].
  - intros [H|[H|H]]; rewrite H; reflexivity.
  - intros H; rewrite H; reflexivity.
  - intros H; rewrite H; reflexivity.
  - intros c H Hne Hk Hp. rewrite H. cbn [JS.or_default].
    destruct c as [|x r]; [congruence|]. cbn [JS.truthy].
    rewrite get_prop_guidelines_other by assumption. reflexivity.
  - unfold buildEnhancedPrompt. cbn [JS.join].
    do 16 apply includes_app_r.
    apply includes_starts. rewrite !starts_with_app_same.
    apply starts_with_refl_app.
Qed.

Lemma complexity_section_selection_witness :
  complexity_section (with_complexity (Some "expert")) = "undefined".
Proof.
  apply (proj1 (proj2 (proj2 (proj2 (complexity_section_selection (with_complexity (Some "expert"))
                                         openclaw_template)))) "expert");
    [reflexivity|discriminate|intros H; apply existsb_eqb_In in H; vm_compute in H; discriminate..].
Defined.

(* ================================================================== *)
(** * Further properties of the engine *)

(** ** Validation engine *)

Lemma fold_security_msgs (c : string) (ps : list DangerousPattern) (acc : list string * Z) (x : string) :
  In x (fst (fold_left (security_step c) ps acc)) ->
  In x (fst acc) \/ exists p, In p ps /\ x = message p.
Proof.
  revert acc; induction ps as [|p ps IH]; intros acc H; simpl in H; [left; exact H|].
  destruct (IH _ H) as [H1|(q & Hq & ->)].
  - unfold security_step in H1. destruct (Regex.test (pattern p) c); simpl in H1.
    + apply in_app_or in H1 as [H1|[<-|[]]]; [left; exact H1|right; exists p; simpl; auto].
    + left; exact H1.
  - right. exists q. simpl; auto.
Qed.

Lemma critical_msgs (md : string) (files : list CodeFile) (x : string) :
  In x (critical (validateSecurity md files)) ->
  In x (map message dangerousPatterns).
Proof.
  rewrite critical_eq. intros H.
  destruct (fold_security_msgs _ _ _ _ H) as [[]|(p & Hp & ->)].
  apply in_map, Hp.
Qed.

Lemma errors_eq (skill : GeneratedSkill) :
  errors (enhancedValidation skill) =
  ((if negb (JS.includes (skillMd skill) "---") then ["Missing YAML frontmatter"] else []) ++
   (if negb (JS.truthy (name (metadata skill))) then ["Missing skill name"] else []) ++
   critical (validateSecurity (skillMd skill) (codeFiles skill)))%list.
Proof.
  unfold enhancedValidation. cbv zeta.
  destruct (JS.includes (skillMd skill) "---"), (JS.truthy (name (metadata skill)));
    reflexivity.
Qed.

(** The two structural errors are reported exactly when their condition
    holds: no [---] anywhere in the document, or an empty metadata
    name. *)
Theorem structural_errors_iff (skill : GeneratedSkill) :
  (In "Missing YAML frontmatter" (errors (enhancedValidation skill)) <->
   JS.includes (skillMd skill) "---" = false) /\
  (In "Missing skill name" (errors (enhancedValidation skill)) <->
   name (metadata skill) = "").
Proof.
  assert (Hc : forall x, In x (critical (validateSecurity (skillMd skill) (codeFiles skill))) ->
                x <> "Missing YAML frontmatter" /\ x <> "Missing skill name").
  { intros x Hx. apply critical_msgs in Hx. simpl in Hx.
    repeat destruct Hx as [<-|Hx]; try contradiction; split; discriminate. }
  rewrite errors_eq. rewrite <- truthy_false.
  destruct (JS.includes (skillMd skill) "---"), (JS.truthy (name (metadata skill)));
    cbn [negb app]; split; split; intros H; try discriminate;
    try solve [simpl; auto];
    repeat (destruct H as [H|H]; [try discriminate H|]);
    destruct (Hc _ H); congruence.
Qed.

Lemma starts_with_app_inv (p q s : string) :
  JS.starts_with (p ++ q) s = true -> JS.starts_with p s = true.
Proof.
  revert s; induction p as [|x p IH]; intros s H; [reflexivity|].
  destruct s as [|y s]; simpl in *; [discriminate|].
  apply andb_prop in H as [H1 H2]. rewrite H1, (IH _ H2). reflexivity.
Qed.

Lemma includes_app_inv (s p q : string) :
  JS.includes s (p ++ q) = true -> JS.includes s p = true.
Proof.
  induction s as [|c r IH]; simpl; intros H.
  - exact (starts_with_app_inv _ _ _ H).
  - apply orb_prop in H as [H|H].
    + rewrite (starts_with_app_inv _ _ _ H). reflexivity.
    + rewrite (IH H). apply orb_true_r.
Qed.

(** Closed form of the security score. *)
Lemma security_score_eq (skill : GeneratedSkill) :
  let c := allContent (skillMd skill) (codeFiles skill) in
  security_score (enhancedValidation skill) =
  (100 - ((if Regex.test Regex.eval_call c then 30 else 0) +
          (if Regex.test Regex.exec_call c then 25 else 0) +
          (if Regex.test Regex.innerHTML_assign c then 15 else 0) +
          (if Regex.test Regex.process_env c then 5 else 0) +
          (if negb (JS.includes c "try") && negb (JS.includes c "catch") then 10 else 0)))%Z.
Proof.
  cbv zeta. destruct (enhancedValidation_fields skill) as (_ & _ & _ & Hs & _).
  rewrite Hs, sec_deduction_eq. cbv zeta. unfold dangerousPatterns.
  cbn [fold_left]. unfold security_step. cbn [pattern deduction].
  set (c := allContent (skillMd skill) (codeFiles skill)).
  destruct (Regex.test Regex.eval_call c), (Regex.test Regex.exec_call c),
           (Regex.test Regex.innerHTML_assign c), (Regex.test Regex.process_env c),
           (negb (JS.includes c "try") && negb (JS.includes c "catch"));
    cbn [fst snd]; lia.
Qed.

(** Closed form of the performance score. *)
Lemma performance_score_eq (skill : GeneratedSkill) :
  let c := allContent (skillMd skill) (codeFiles skill) in
  performance_score (enhancedValidation skill) =
  (if JS.includes c "setInterval" && negb (JS.includes c "clearInterval") then 90 else 100)%Z.
Proof.
  cbv zeta. destruct (enhancedValidation_fields skill) as (_ & _ & _ & _ & Hp).
  rewrite Hp. unfold validatePerformance. cbv zeta.
  destruct (_ && _); reflexivity.
Qed.

(** Tight ranges of the three scores: security in [15, 100], performance
    90 or 100, overall quality in [65, 116]; none of them can reach the
    lower clamp at 0. *)
Theorem score_ranges (skill : GeneratedSkill) :
  (15 <= security_score (enhancedValidation skill) <= 100)%Z /\
  (performance_score (enhancedValidation skill) = 90 \/
   performance_score (enhancedValidation skill) = 100)%Z /\
  (65 <= score (enhancedValidation skill) <= 116)%Z.
Proof.
  pose proof (security_score_eq skill) as Hs. cbv zeta in Hs.
  pose proof (performance_score_eq skill) as Hp. cbv zeta in Hp.
  destruct (enhancedValidation_fields skill) as ((e1 & q1 & Hq & _ & Hsc) & _).
  pose proof (doc_bonus_range (skillMd skill)).
  split; [|split].
  - rewrite Hs. repeat match goal with |- context [if ?b then _ else _] => destruct b end; lia.
  - rewrite Hp. match goal with |- context [if ?b then _ else _] => destruct b end;
    [left|right]; reflexivity.
  - rewrite Hsc; lia.
Qed.

(** A document with no [##] anywhere gets the section-header suggestion
    and at most the 3 points of the code-block bonus. *)
Theorem no_headers_documentation (md : string) (H : JS.includes md "##" = false) :
  doc_suggestions (validateDocumentation md) =
    ["Consider adding section headers for better organization"] /\
  (bonus (validateDocumentation md) <= 3)%Z.
Proof.
  assert (Hh : forall q, JS.includes md ("##" ++ q) = false).
  { intros q. destruct (JS.includes md ("##" ++ q)) eqn:E; [|reflexivity].
    apply includes_app_inv in E. congruence. }
  unfold validateDocumentation. cbn [bonus doc_suggestions]. rewrite H.
  rewrite (Hh " Usage" : JS.includes md "## Usage" = false),
          (Hh " Example" : JS.includes md "## Example" = false),
          (Hh " Installation" : JS.includes md "## Installation" = false),
          (Hh " Troubleshooting" : JS.includes md "## Troubleshooting" = false),
          (Hh " FAQ" : JS.includes md "## FAQ" = false).
  split; [reflexivity|]. destruct (JS.includes md "```"); simpl; lia.
Qed.

(** ** Slugs *)

Lemma hyphenate_runs_no_double (s : string) (b : bool) :
  all_chars (fun c => JS.is_lower c || JS.is_digit c || JS.is_space c) s = true ->
  JS.includes (hyphenate_runs b s) "--" = false /\
  (b = true -> JS.starts_with "-" (hyphenate_runs b s) = false).
Proof.
  revert b; induction s as [|c r IH]; intros b H; [simpl; split; reflexivity|].
  simpl in H. apply andb_prop in H as [Hc Hr].
  cbn [hyphenate_runs]. destruct (JS.is_space c) eqn:Hs.
  - destruct b.
    + exact (IH true Hr).
    + destruct (IH true Hr) as [H1 H2]. split; [|intros; discriminate].
      change (JS.includes (String "-" (hyphenate_runs true r)) "--") with
        (JS.starts_with "-" (hyphenate_runs true r) || JS.includes (hyphenate_runs true r) "--").
      rewrite (H2 eq_refl), H1. reflexivity.
  - destruct (IH false Hr) as [H1 _].
    assert (Hd : Ascii.eqb "-" c = false).
    { destruct (Ascii.eqb "-" c) eqn:E; [|reflexivity].
      apply Ascii.eqb_eq in E; subst c. discriminate Hc. }
    change (JS.includes (String c (hyphenate_runs false r)) "--") with
      ((Ascii.eqb "-" c && JS.starts_with "-" (hyphenate_runs false r)) ||
       JS.includes (hyphenate_runs false r) "--").
    rewrite Hd, H1. split; [reflexivity|].
    intros _. change (Ascii.eqb "-" c && true = false). rewrite Hd. reflexivity.
Qed.

Lemma starts_with_substring0 (p s : string) (n : nat) :
  JS.starts_with p (JS.substring0 n s) = true -> JS.starts_with p s = true.
Proof.
  unfold JS.substring0. revert s n; induction p as [|x p IH]; intros s n H; [reflexivity|].
  destruct s as [|y s], n as [|n]; simpl in *; try discriminate.
  apply andb_prop in H as [H1 H2]. rewrite H1. exact (IH s n H2).
Qed.

Lemma includes_substring0 (p s : string) (n : nat) :
  JS.includes (JS.substring0 n s) p = true -> JS.includes s p = true.
Proof.
  revert n; induction s as [|c r IH]; intros n H.
  - destruct n; exact H.
  - destruct n as [|n].
    + destruct p; [destruct r; reflexivity|discriminate].
    + change (JS.substring0 (S n) (String c r)) with (String c (JS.substring0 n r)) in H.
      cbn [JS.includes] in *. apply orb_prop in H as [H|H].
      * rewrite (starts_with_substring0 p (String c r) (S n) H). reflexivity.
      * rewrite (IH n H). apply orb_true_r.
Qed.

(** A generated skill name never contains two consecutive hyphens: every
    run of whitespace becomes a single hyphen and hyphens of the input
    are removed before. *)
Theorem generateSkillName_no_double_hyphen (description : string) :
  JS.includes (generateSkillName description) "--" = false.
Proof.
  unfold generateSkillName.
  destruct (JS.includes (JS.substring0 50 _) "--") eqn:E; [|reflexivity].
  apply includes_substring0 in E.
  rewrite (proj1 (hyphenate_runs_no_double _ false (strip_non_slug_chars _))) in E.
  discriminate.
Qed.

(** ** Frontmatter fields *)

Lemma substring0_app (a b : string) : String.substring 0 (String.length a) (a ++ b) = a.
Proof. induction a as [|x r IH]; simpl; [destruct b; reflexivity|rewrite IH; reflexivity]. Qed.

Lemma starts_with_refl (a : string) : JS.starts_with a a = true.
Proof. rewrite <- (append_empty_r a) at 2. apply starts_with_refl_app. Qed.

Lemma ci_starts_with_app (p b : string) : Frontmatter.ci_starts_with p (p ++ b) = true.
Proof. unfold Frontmatter.ci_starts_with. rewrite substring0_app. apply starts_with_refl. Qed.

Lemma after_app_same (p b : string) : Regex.after p (p ++ b) = b.
Proof.
  unfold Regex.after. induction p as [|x r IH]; [reflexivity|exact IH].
Qed.

Lemma field_prefix_app (v rest : string) :
  all_chars Frontmatter.field_char v = true ->
  match rest with String c _ => Frontmatter.field_char c = false | EmptyString => True end ->
  Frontmatter.field_prefix (v ++ rest) = v.
Proof.
  intros Hv Hr. induction v as [|c r IH]; cbn [append Frontmatter.field_prefix all_chars] in *.
  - destruct rest as [|c u]; [reflexivity|]. cbn [Frontmatter.field_prefix]. rewrite Hr. reflexivity.
  - apply andb_prop in Hv as [Hc Hv]. rewrite Hc, (IH Hv). reflexivity.
Qed.

Lemma rev_str_empty (s : string) : JS.rev_str s = "" -> s = "".
Proof.
  destruct s as [|c r]; [reflexivity|simpl]. destruct (JS.rev_str r); discriminate.
Qed.

Lemma drop_spaces_snoc (a : string) (c : ascii) :
  JS.is_space c = false -> JS.drop_spaces (a ++ String c "") <> "".
Proof.
  intros Hc. induction a as [|x r IH]; simpl.
  - rewrite Hc. discriminate.
  - destruct (JS.is_space x); [exact IH|discriminate].
Qed.

Lemma trim_nonempty (c : ascii) (v : string) :
  JS.is_space c = false -> JS.truthy (JS.trim (String c v)) = true.
Proof.
  intros Hc. unfold JS.trim. cbn [JS.drop_spaces]. rewrite Hc. cbn [JS.rev_str].
  destruct (JS.rev_str (JS.drop_spaces (JS.rev_str v ++ String c ""))) eqn:E;
    [|reflexivity].
  apply rev_str_empty in E. exfalso. exact (drop_spaces_snoc _ _ Hc E).
Qed.

Lemma fieldMatch_unfold (field s : string) :
  Frontmatter.fieldMatch field s =
  match (if Frontmatter.ci_starts_with (field ++ ":") s
         then Frontmatter.spaces_then_value (Regex.after (field ++ ":") s) else None) with
  | Some v => Some v
  | None => match s with
            | EmptyString => None
            | String _ r => Frontmatter.fieldMatch field r
            end
  end.
Proof. destruct s; reflexivity. Qed.

Lemma parseField_head_line_literal (field c : ascii) (fieldrest v rest def : string) :
  let f := String field fieldrest in
  JS.is_space c = false ->
  all_chars Frontmatter.field_char (String c v) = true ->
  Frontmatter.parseField (f ++ ": " ++ String c v ++ nl ++ rest) f def = JS.trim (String c v).
Proof.
  intros f Hs Hv. unfold Frontmatter.parseField.
  assert (Hm : Frontmatter.fieldMatch f (f ++ ": " ++ String c v ++ nl ++ rest) = Some (String c v)).
  { change (f ++ ": " ++ String c v ++ nl ++ rest) with (f ++ ":" ++ " " ++ String c v ++ nl ++ rest).
    rewrite <- (append_assoc_str f ":").
    rewrite fieldMatch_unfold, ci_starts_with_app, after_app_same.
    simpl in Hv. apply andb_prop in Hv as [Hc Hv'].
    change (" " ++ String c v ++ nl ++ rest) with (String " " (String c (v ++ nl ++ rest))).
    cbn [Frontmatter.spaces_then_value]. change (JS.is_space " ") with true. rewrite Hs.
    unfold Frontmatter.quote_then_value.
    assert (Hq : Frontmatter.is_quote c = false).
    { unfold Frontmatter.field_char in Hc. unfold Frontmatter.is_quote.
      destruct (JS.code c =? 34), (JS.code c =? 39); simpl in *; congruence. }
    rewrite Hq, Hc.
    change (String c (v ++ nl ++ rest)) with (String c v ++ nl ++ rest).
    rewrite field_prefix_app; [reflexivity| |reflexivity].
    cbn [all_chars]. rewrite Hc. exact Hv'. }
  rewrite Hm. cbn [option_map]. unfold JS.or_default. rewrite trim_nonempty by exact Hs.
  reflexivity.
Qed.

(** For each of the three fields [parseEnhancedMetadata] reads (name,
    description, version), a frontmatter that starts with the line
    [field: value] yields that value, trimmed, whatever follows the
    line: the value starts with a non-blank character and holds no quote
    or newline. *)
Theorem parseField_head_line (f : string) (c : ascii) (v rest def : string) :
  f = "name" \/ f = "description" \/ f = "version" ->
  JS.is_space c = false ->
  all_chars Frontmatter.field_char (String c v) = true ->
  Frontmatter.parseField (f ++ ": " ++ String c v ++ nl ++ rest) f def = JS.trim (String c v).
Proof.
  intros [->|[->| ->]];
    [exact (parseField_head_line_literal "n" c "ame" v rest def)
    |exact (parseField_head_line_literal "d" c "escription" v rest def)
    |exact (parseField_head_line_literal "v" c "ersion" v rest def)].
Qed.

(** A document whose first line is [---] followed by a carriage return
    (CRLF line endings) has no frontmatter for the anchored regex: every
    field falls back to its default. *)
Theorem crlf_frontmatter_defaults (rest : string) (request : SkillGenerationRequest) :
  Frontmatter.frontmatterMatch ("---" ++ String (ascii_of_nat 13) nl ++ rest) = None /\
  parseEnhancedMetadata ("---" ++ String (ascii_of_nat 13) nl ++ rest) request =
  metadata_of (generateSkillName (description request)) (description request) "1.0.0" request.
Proof.
  assert (H : Frontmatter.frontmatterMatch ("---" ++ String (ascii_of_nat 13) nl ++ rest) = None)
    by reflexivity.
  split; [exact H|]. unfold parseEnhancedMetadata, parseEnhancedMetadata_try. rewrite H.
  reflexivity.
Qed.

(** ** Post-processing *)

Lemma split_char_cons (c : ascii) (s : string) : exists x xs, split_char c s = x :: xs.
Proof.
  destruct s as [|d r]; simpl; [eauto|].
  destruct (Ascii.eqb c d); [eauto|]. destruct (split_char c r); eauto.
Qed.

Lemma join_cons_char (sep x : string) (d : ascii) (xs : list string) :
  JS.join sep (String d x :: xs) = String d (JS.join sep (x :: xs)).
Proof. destruct xs; reflexivity. Qed.

(** [lines.join('\n')] undoes [content.split('\n')]. *)
Lemma join_split (s : string) : JS.join nl (split_char (ascii_of_nat 10) s) = s.
Proof.
  induction s as [|d r IH]; [reflexivity|].
  cbn [split_char]. destruct (Ascii.eqb (ascii_of_nat 10) d) eqn:E.
  - apply Ascii.eqb_eq in E; subst d.
    destruct (split_char_cons (ascii_of_nat 10) r) as (x & xs & Hs). rewrite Hs in *.
    rewrite join_cons, IH. reflexivity.
  - destruct (split_char_cons (ascii_of_nat 10) r) as (x & xs & Hs). rewrite Hs in *.
    rewrite join_cons_char, IH. reflexivity.
Qed.

Lemma findIndex_from_ge (i k : nat) (l : list string) : findIndex_from i l = Some k -> i <= k.
Proof.
  revert i; induction l as [|a l IH]; intros i H; simpl in H; [discriminate|].
  destruct ((0 <? i) && String.eqb a "---"); [injection H; lia|].
  apply IH in H; lia.
Qed.

Lemma findIndex_from_none (i : nat) (l : list string) :
  0 < i -> findIndex_from i l = None <-> ~ In "---" l.
Proof.
  revert i; induction l as [|a l IH]; intros i Hi; simpl; [tauto|].
  assert (E : (0 <? i) = true) by (apply Nat.ltb_lt; exact Hi). rewrite E. cbn [andb].
  destruct (String.eqb a "---") eqn:Ea.
  - apply String.eqb_eq in Ea. split; [discriminate|intros H; exfalso; apply H; auto].
  - rewrite (IH (S i)) by lia. apply String.eqb_neq in Ea.
    split; intros H; [intros [H'|H']; [congruence|tauto]|tauto].
Qed.

Lemma starts_with_dashes (s : string) :
  JS.starts_with "---" s = true -> exists t, s = "---" ++ t.
Proof.
  intros H.
  destruct s as [|a s]; [discriminate|]. cbn [JS.starts_with] in H.
  apply andb_prop in H as [Ea H].
  destruct s as [|b s]; [discriminate|]. cbn [JS.starts_with] in H.
  apply andb_prop in H as [Eb H].
  destruct s as [|c t]; [discriminate|]. cbn [JS.starts_with] in H.
  apply andb_prop in H as [Ec _].
  apply Ascii.eqb_eq in Ea, Eb, Ec. subst. exists t. reflexivity.
Qed.

Lemma postProcess_content_starts (content : string) :
  JS.starts_with "---" (if JS.starts_with "---" content then content else "---" ++ nl ++ content) = true.
Proof.
  destruct (JS.starts_with "---" content) eqn:E; [exact E|apply starts_with_refl_app].
Qed.

Lemma split_dashes_head (t : string) :
  exists x xs, split_char (ascii_of_nat 10) ("---" ++ t) = ("---" ++ x) :: xs.
Proof.
  destruct (split_char_cons (ascii_of_nat 10) t) as (x & xs & Hs).
  exists x, xs. change ("---" ++ t) with (String "-" (String "-" (String "-" t))).
  cbn [split_char]. change (Ascii.eqb (ascii_of_nat 10) "-") with false. cbv iota.
  rewrite Hs. reflexivity.
Qed.

Lemma starts_with_trans (p a s : string) :
  JS.starts_with p a = true -> JS.starts_with a s = true -> JS.starts_with p s = true.
Proof.
  revert a s; induction p as [|x p IH]; intros a s H1 H2; [reflexivity|].
  destruct a as [|y a]; [discriminate|]. destruct s as [|z s]; [discriminate|].
  cbn [JS.starts_with] in *. apply andb_prop in H1 as [E1 H1], H2 as [E2 H2].
  apply Ascii.eqb_eq in E1, E2. subst. rewrite Ascii.eqb_refl. exact (IH _ _ H1 H2).
Qed.

Lemma join_head (sep a : string) (l : list string) : JS.starts_with a (JS.join sep (a :: l)) = true.
Proof. destruct l; [apply starts_with_refl|apply starts_with_refl_app]. Qed.

(** The post-processed document starts with [---]. *)
Lemma postProcess_starts (now_iso content : string)
    (request : SkillGenerationRequest) :
  JS.starts_with "---" (postProcessSkillMd now_iso content request) = true.
Proof.
  unfold postProcessSkillMd. cbv zeta.
  destruct (starts_with_dashes _ (postProcess_content_starts content)) as (t & Ht).
  rewrite Ht. destruct (split_dashes_head t) as (x & xs & Hs). rewrite Hs.
  destruct (findIndex_from 0 _) as [k|] eqn:Hk.
  - assert (Hk1 : 1 <= k).
    { cbn [findIndex_from] in Hk. change ((0 <? 0) && _) with false in Hk.
      apply findIndex_from_ge in Hk. exact Hk. }
    destruct k as [|k]; [lia|]. cbn [firstn app].
    eapply starts_with_trans; [apply starts_with_refl_app|apply join_head].
  - eapply starts_with_trans; [apply starts_with_refl_app|apply join_head].
Qed.

(** When no line after the first is exactly [---], post-processing adds
    nothing: the result is the input, with [---] and a newline put in
    front when it did not already start with [---]. *)
Theorem postProcessSkillMd_no_closing (now_iso content : string)
    (request : SkillGenerationRequest) :
  let content' := if JS.starts_with "---" content then content else "---" ++ nl ++ content in
  ~ In "---" (tl (split_char (ascii_of_nat 10) content')) ->
  postProcessSkillMd now_iso content request = content'.
Proof.
  intros content' H. unfold postProcessSkillMd. fold content'.
  destruct (split_char_cons (ascii_of_nat 10) content') as (x & xs & Hs).
  rewrite Hs in *. cbn [tl] in H.
  assert (Hn : findIndex_from 0 (x :: xs) = None).
  { cbn [findIndex_from]. change ((0 <? 0) && _) with false. cbv iota.
    apply findIndex_from_none; [lia|exact H]. }
  rewrite Hn, <- Hs. apply join_split.
Qed.

(** ** The generation pipeline *)

Section EngineFacts.

Variable openai_create : string -> string -> string + option string.
Variable now_iso : string.
Variable path_join : string -> string -> string.
Variable fs_ensureDir : string -> option string.
Variable fs_writeFile : string -> string -> option string.
Variable json_stringify : SkillMetadata -> string.

Let gen := generateSkill openai_create now_iso path_join fs_ensureDir fs_writeFile json_stringify.
Let save := saveSkillToDirectory path_join fs_ensureDir fs_writeFile json_stringify.

Lemma writeFile_calls (p c : string) (w : World) :
  provider_calls (snd (writeFile fs_writeFile p c w)) = provider_calls w.
Proof. unfold writeFile. destruct (fs_writeFile p c); reflexivity. Qed.

Lemma write_all_calls (dir : string) (files : list (string * string)) (w : World) :
  provider_calls (snd (write_all path_join fs_writeFile dir files w)) = provider_calls w.
Proof.
  revert w; induction files as [|[f c] r IH]; intros w; [reflexivity|].
  cbn [write_all]. unfold bind. pose proof (writeFile_calls (path_join dir f) c w) as H.
  destruct (writeFile fs_writeFile (path_join dir f) c w) as [[e|[]] w1]; simpl in *;
    [exact H|rewrite IH; exact H].
Qed.

Lemma save_calls (self : AgentForgeEnhanced) (skill : GeneratedSkill) (w : World) :
  provider_calls (snd (save self skill w)) = provider_calls w.
Proof.
  unfold save, saveSkillToDirectory.
  destruct (outputDir (config self)) as [out|]; [|reflexivity].
  destruct (negb (JS.truthy out)); [reflexivity|].
  unfold bind, ensureDir.
  destruct (fs_ensureDir _); [reflexivity|].
  pose proof (writeFile_calls (path_join (path_join out (name (metadata skill))) "SKILL.md") (skillMd skill) w) as H1.
  destruct (writeFile _ _ _ w) as [[e|[]] w1]; [exact H1|].
  pose proof (write_all_calls (path_join out (name (metadata skill)))
                (map (fun f => (cf_filename f, cf_content f)) (codeFiles skill)) w1) as H2.
  destruct (write_all _ _ _ _ w1) as [[e|[]] w2]; [simpl in *; congruence|].
  pose proof (write_all_calls (path_join out (name (metadata skill)))
                (map (fun f => (tf_filename f, tf_content f)) (testFiles skill)) w2) as H3.
  destruct (write_all _ _ _ _ w2) as [[e|[]] w3]; [simpl in *; congruence|].
  rewrite writeFile_calls. simpl in *; congruence.
Qed.

(** Inversion of a successful [generateSkill]. *)
Lemma generateSkill_ok_inv (self : AgentForgeEnhanced) (request : SkillGenerationRequest)
    (w w' : World) (g : GeneratedSkill) :
  gen self request w = (inr g, w') ->
  validateRequest request = inr tt /\
  exists template c,
    templates self !! framework request = Some template /\
    openai_create system_prompt (buildEnhancedPrompt request template) = inr (Some c) /\
    JS.truthy c = true /\
    provider_calls w' = S (provider_calls w) /\
    skillMd g = postProcessSkillMd now_iso c request /\
    metadata g = parseEnhancedMetadata (skillMd g) request /\
    validationResult g = enhancedValidation g /\
    solanaConfig g = (if wants_solana request then Some (generateSolanaConfig request) else None).
Proof.
  intros H.
  cbv beta iota zeta delta [gen generateSkill catch bind lift ret throw
                            generateEnhancedSkillMd openai_call] in H.
  destruct (validateRequest request) as [e|[]] eqn:Hv; cbv beta iota in H; [discriminate H|].
  destruct (templates self !! framework request) as [template|] eqn:Ht;
    cbv beta iota in H; [|discriminate H].
  destruct (openai_create system_prompt (buildEnhancedPrompt request template)) as [e|[c|]] eqn:Ho;
    cbv beta iota in H; [discriminate H| |discriminate H].
  destruct (JS.truthy c) eqn:Hc; cbv beta iota in H; [|discriminate H].
  set (w1 := {| provider_calls := S (provider_calls w); written := written w |}) in H.
  match type of H with
  | context [(if output_dir_set self then ?sv else ?d) w1] =>
      assert (Hcalls : provider_calls (snd ((if output_dir_set self then sv else d) w1)) =
                       provider_calls w1)
        by (destruct (output_dir_set self); [apply save_calls|reflexivity]);
      destruct ((if output_dir_set self then sv else d) w1) as [[e|[]] w2]
  end; cbv beta iota in H; [discriminate H|].
  injection H as <- <-.
  split; [reflexivity|]. exists template, c.
  repeat split; try assumption; try reflexivity.
Qed.

Ltac gen_ok_steps H :=
  cbv beta iota zeta delta [generateSkill catch bind lift ret throw
                            generateEnhancedSkillMd openai_call] in H;
  let Hv := fresh "Hv" in let Ht := fresh "Ht" in let Ho := fresh "Ho" in
  let Hc := fresh "Hc" in
  destruct (validateRequest _) as [?e|[]] eqn:Hv; cbv beta iota in H; [discriminate H|];
  destruct (templates _ !! framework _) as [?template|] eqn:Ht;
    cbv beta iota in H; [|discriminate H];
  destruct (openai_create system_prompt (buildEnhancedPrompt _ _)) as [?e|[?c|]] eqn:Ho;
    cbv beta iota in H; [discriminate H| |discriminate H];
  destruct (JS.truthy _) eqn:Hc; cbv beta iota in H; [|discriminate H].

Lemma save_ok_written (self : AgentForgeEnhanced) (skill : GeneratedSkill) (w w2 : World)
    (out : string) :
  save self skill w = (inr tt, w2) -> codeFiles skill = [] -> testFiles skill = [] ->
  outputDir (config self) = Some out -> JS.truthy out = true ->
  written w2 =
  (written w ++
   [(path_join (path_join out (name (metadata skill))) "SKILL.md", skillMd skill);
    (path_join (path_join out (name (metadata skill))) "metadata.json",
     json_stringify (metadata skill))])%list.
Proof.
  intros H Hcf Htf Hout Htr.
  unfold save, saveSkillToDirectory in H. rewrite Hout, Htr, Hcf, Htf in H.
  cbv beta iota zeta delta [negb bind ensureDir writeFile ret write_all map] in H.
  destruct (fs_ensureDir _); [discriminate H|].
  destruct (fs_writeFile (path_join (path_join out (name (metadata skill))) "SKILL.md") _);
    [discriminate H|].
  destruct (fs_writeFile (path_join (path_join out (name (metadata skill))) "metadata.json") _);
    [discriminate H|].
  injection H as <-. cbn [written]. rewrite <- app_assoc. reflexivity.
Qed.

(** Files written by a successful call: none when no output directory is
    configured (or it is empty); otherwise exactly [SKILL.md] and then
    [metadata.json], in the directory named after the skill. *)
Theorem generateSkill_written_files (self : AgentForgeEnhanced) (request : SkillGenerationRequest)
    (w w' : World) (g : GeneratedSkill) :
  gen self request w = (inr g, w') ->
  (output_dir_set self = false -> written w' = written w) /\
  (forall out, outputDir (config self) = Some out -> JS.truthy out = true ->
     written w' =
     (written w ++
      [(path_join (path_join out (name (metadata g))) "SKILL.md", skillMd g);
       (path_join (path_join out (name (metadata g))) "metadata.json",
        json_stringify (metadata g))])%list).
Proof.
  intros H. unfold gen in H. gen_ok_steps H.
  destruct (output_dir_set self) eqn:Hod.
  - match type of H with
    | context [saveSkillToDirectory path_join fs_ensureDir fs_writeFile json_stringify self ?r ?w1] =>
        destruct (saveSkillToDirectory path_join fs_ensureDir fs_writeFile json_stringify self r w1)
          as [[e|[]] w2] eqn:Es
    end; cbv beta iota in H; [discriminate H|].
    injection H as <- <-. split; [discriminate|].
    intros out Hout Htr. exact (save_ok_written _ _ _ _ _ Es eq_refl eq_refl Hout Htr).
  - injection H as <- <-. split; [reflexivity|].
    intros out Hout Htr. unfold output_dir_set in Hod. rewrite Hout, Htr in Hod. discriminate.
Qed.

(** A chat completion whose content is null or empty makes the call
    reject with [Skill generation failed: OpenAI returned empty response]
    after that one request, and no file is written. *)
Theorem generateSkill_empty_response (self : AgentForgeEnhanced)
    (request : SkillGenerationRequest) (template : SkillTemplate) (w : World) :
  validateRequest request = inr tt ->
  templates self !! framework request = Some template ->
  openai_create system_prompt (buildEnhancedPrompt request template) = inr None \/
  openai_create system_prompt (buildEnhancedPrompt request template) = inr (Some "") ->
  gen self request w =
  (inl "Skill generation failed: OpenAI returned empty response",
   {| provider_calls := S (provider_calls w); written := written w |}).
Proof.
  intros Hv Ht Ho. unfold gen.
  cbv beta iota zeta delta [generateSkill catch bind lift ret throw
                            generateEnhancedSkillMd openai_call].
  rewrite Hv, Ht. destruct Ho as [Ho|Ho]; rewrite Ho; reflexivity.
Qed.

(** A rejected chat completion makes the call reject with the prefix
    [Skill generation failed: ] before the provider's message; it is not
    retried and no file is written. *)
Theorem generateSkill_provider_error (self : AgentForgeEnhanced)
    (request : SkillGenerationRequest) (template : SkillTemplate) (e : string) (w : World) :
  validateRequest request = inr tt ->
  templates self !! framework request = Some template ->
  openai_create system_prompt (buildEnhancedPrompt request template) = inl e ->
  gen self request w =
  (inl ("Skill generation failed: " ++ e),
   {| provider_calls := S (provider_calls w); written := written w |}).
Proof.
  intros Hv Ht Ho. unfold gen.
  cbv beta iota zeta delta [generateSkill catch bind lift ret throw
                            generateEnhancedSkillMd openai_call].
  rewrite Hv, Ht, Ho. reflexivity.
Qed.

(** When the output directory cannot be created, the whole call rejects
    with the file-system message after the skill was generated: the
    generated skill is not returned and no file is written. *)
Theorem generateSkill_ensureDir_failure (self : AgentForgeEnhanced)
    (request : SkillGenerationRequest) (template : SkillTemplate) (c e : string) (w : World) :
  validateRequest request = inr tt ->
  templates self !! framework request = Some template ->
  openai_create system_prompt (buildEnhancedPrompt request template) = inr (Some c) ->
  JS.truthy c = true ->
  output_dir_set self = true ->
  (forall dir, fs_ensureDir dir = Some e) ->
  gen self request w =
  (inl ("Skill generation failed: " ++ e),
   {| provider_calls := S (provider_calls w); written := written w |}).
Proof.
  intros Hv Ht Ho Hc Hod Hfail. unfold gen.
  cbv beta iota zeta delta [generateSkill catch bind lift ret throw
                            generateEnhancedSkillMd openai_call].
  rewrite Hv, Ht, Ho. cbv beta iota. rewrite Hc, Hod. cbv beta iota zeta.
  unfold saveSkillToDirectory.
  unfold output_dir_set in Hod. destruct (outputDir (config self)) as [out|]; [|discriminate].
  rewrite Hod. cbv beta iota zeta delta [negb bind ensureDir]. rewrite Hfail. reflexivity.
Qed.

Lemma metadata_quality_zero (md : string) (request : SkillGenerationRequest) :
  option_map quality_score (agentforge (parseEnhancedMetadata md request)) = Some 0%Z.
Proof.
  unfold parseEnhancedMetadata, parseEnhancedMetadata_try.
  destruct (Frontmatter.frontmatterMatch md); reflexivity.
Qed.

(** The record a successful call returns carries the validation report
    of that very record; since the document always starts with [---] the
    report never lists [Missing YAML frontmatter]; and the metadata's
    [agentforge.quality_score] stays 0, while the report's score is at
    least 65. *)
Theorem generateSkill_report (self : AgentForgeEnhanced) (request : SkillGenerationRequest)
    (w w' : World) (g : GeneratedSkill) :
  gen self request w = (inr g, w') ->
  validationResult g = enhancedValidation g /\
  ~ In "Missing YAML frontmatter" (errors (validationResult g)) /\
  option_map quality_score (agentforge (metadata g)) = Some 0%Z /\
  (65 <= score (validationResult g))%Z.
Proof.
  intros H.
  destruct (generateSkill_ok_inv _ _ _ _ _ H)
    as (_ & template & c & _ & _ & _ & _ & Hs & Hm & Hval & _).
  rewrite Hval. split; [reflexivity|]. split; [|split].
  - rewrite errors_eq.
    rewrite (includes_starts _ _ (eq_trans (f_equal (JS.starts_with "---") Hs)
                                          (postProcess_starts now_iso c request))).
    cbn [negb app]. intros Hin.
    destruct (negb (JS.truthy (name (metadata g)))); cbn [app] in Hin;
      [destruct Hin as [Hin|Hin]; [discriminate Hin|]|];
      apply critical_msgs in Hin; simpl in Hin;
      repeat destruct Hin as [Hin|Hin]; try discriminate Hin; contradiction.
  - rewrite Hm. apply metadata_quality_zero.
  - destruct (enhancedValidation_fields g) as ((e1 & q1 & Hq & _ & Hsc) & _).
    pose proof (doc_bonus_range (skillMd g)). rewrite Hsc. lia.
Qed.

Lemma wants_solana_false (request : SkillGenerationRequest) :
  wants_solana request = false <->
  forall l, integrations request = Some l ->
    ~ In "jupiter" l /\ ~ In "pyth" l /\ ~ In "metaplex" l.
Proof.
  unfold wants_solana. destruct (integrations request) as [l|].
  - split.
    + intros H l' E. injection E as <-.
      repeat split; intros Hin;
        (assert (Hx : existsb (fun i => existsb (String.eqb i) ["jupiter"; "pyth"; "metaplex"]) l = true)
           by (apply existsb_exists; eexists; split; [exact Hin|reflexivity]));
        congruence.
    + intros H. destruct (H l eq_refl) as (H1 & H2 & H3).
      destruct (existsb _ l) eqn:E; [|reflexivity]. exfalso.
      apply existsb_exists in E as (x & Hx & Hx').
      cbn [existsb] in Hx'.
      destruct (String.eqb x "jupiter") eqn:E1;
        [apply String.eqb_eq in E1; subst; contradiction|].
      destruct (String.eqb x "pyth") eqn:E2;
        [apply String.eqb_eq in E2; subst; contradiction|].
      destruct (String.eqb x "metaplex") eqn:E3;
        [apply String.eqb_eq in E3; subst; contradiction|].
      discriminate Hx'.
  - split; [intros _ l E; discriminate|reflexivity].
Qed.

(** The returned Solana config: absent exactly when the integrations
    name none of jupiter, pyth and metaplex; when present it is on
    devnet with no tokens, and it lists no program unless jupiter or
    pyth is named (metaplex alone gives an empty program list). *)
Theorem generateSkill_solana_config (self : AgentForgeEnhanced)
    (request : SkillGenerationRequest) (w w' : World) (g : GeneratedSkill) :
  gen self request w = (inr g, w') ->
  (solanaConfig g = None <->
   forall l, integrations request = Some l ->
     ~ In "jupiter" l /\ ~ In "pyth" l /\ ~ In "metaplex" l) /\
  (forall sc, solanaConfig g = Some sc ->
     network sc = devnet /\ tokens sc = [] /\
     (programs sc = [] <->
      integrations_include request "jupiter" = false /\
      integrations_include request "pyth" = false)).
Proof.
  intros H.
  destruct (generateSkill_ok_inv _ _ _ _ _ H) as (_ & _ & _ & _ & _ & _ & _ & _ & _ & _ & Hsc).
  rewrite Hsc, <- wants_solana_false. split.
  - destruct (wants_solana request); split; congruence.
  - intros sc E. destruct (wants_solana request); [|discriminate]. injection E as <-.
    unfold generateSolanaConfig. cbn [network tokens programs]. split; [reflexivity|split; [reflexivity|]].
    destruct (integrations_include request "jupiter"), (integrations_include request "pyth");
      cbn; split; intros; try tauto; try discriminate; destruct H0; discriminate.
Qed.

(** A successful [generateSkill] went through the whole pipeline: the
    request passed validation, the framework's template was used to build
    the prompt, exactly one chat completion was requested, its non-empty
    content was post-processed into [skillMd], and the metadata, the
    validation report and the Solana config were derived from that
    document and the request. *)
Theorem generateSkill_success (self : AgentForgeEnhanced) (request : SkillGenerationRequest)
    (w w' : World) (g : GeneratedSkill) :
  gen self request w = (inr g, w') ->
  validateRequest request = inr tt /\
  exists template c,
    templates self !! framework request = Some template /\
    openai_create system_prompt (buildEnhancedPrompt request template) = inr (Some c) /\
    JS.truthy c = true /\
    provider_calls w' = S (provider_calls w) /\
    skillMd g = postProcessSkillMd now_iso c request /\
    metadata g = parseEnhancedMetadata (skillMd g) request /\
    validationResult g = enhancedValidation g /\
    solanaConfig g = (if wants_solana request then Some (generateSolanaConfig request) else None).
Proof. exact (generateSkill_ok_inv self request w w' g). Qed.

End EngineFacts.

(** ** The prompt *)

Lemma integrations_text_none (request : SkillGenerationRequest) :
  integrations request = None \/ integrations request = Some [] ->
  integrations_text request = "none".
Proof. unfold integrations_text. intros [H|H]; rewrite H; reflexivity. Qed.

(** The prompt sent to the provider contains the template's content on
    the lines after [TEMPLATE STRUCTURE:]; it contains the Solana
    requirements block when the integrations name solana or jupiter; and
    it reports the integrations as none when there are none. *)
Theorem buildEnhancedPrompt_contents (request : SkillGenerationRequest) (template : SkillTemplate) :
  JS.includes (buildEnhancedPrompt request template)
    ("TEMPLATE STRUCTURE:" ++ nl ++ tpl_content template ++ nl) = true /\
  (integrations_include request "solana" || integrations_include request "jupiter" = true ->
   JS.includes (buildEnhancedPrompt request template) "SOLANA REQUIREMENTS:" = true) /\
  (integrations request = None \/ integrations request = Some [] ->
   JS.includes (buildEnhancedPrompt request template) ("- Integrations: none" ++ nl) = true).
Proof.
  unfold buildEnhancedPrompt. cbn [JS.join]. split; [|split].
  - do 52 apply includes_app_r.
    apply includes_starts. rewrite !starts_with_app_same. apply starts_with_refl_app.
  - intros H. do 48 apply includes_app_r.
    apply includes_starts. unfold solana_block. rewrite H.
    rewrite append_assoc_str. apply starts_with_refl_app.
  - intros H. do 12 apply includes_app_r.
    apply includes_starts. rewrite (integrations_text_none _ H).
    change ("- Integrations: none" ++ nl) with ("- Integrations: " ++ "none" ++ nl).
    rewrite !append_assoc_str, !starts_with_app_same. apply starts_with_refl_app.
Qed.

Lemma all_chars_app (p : ascii -> bool) (a b : string) :
  all_chars p (a ++ b) = all_chars p a && all_chars p b.
Proof. induction a as [|x r IH]; simpl; [reflexivity|rewrite IH, andb_assoc; reflexivity]. Qed.

Lemma all_chars_join (p : ascii -> bool) (sep : string) (l : list string) :
  all_chars p sep = true -> Forall (fun x => all_chars p x = true) l ->
  all_chars p (JS.join sep l) = true.
Proof.
  intros Hs Hl. induction Hl as [|x l Hx Hl IH]; [reflexivity|].
  destruct l as [|y l]; [exact Hx|].
  rewrite join_cons, !all_chars_app, Hx, Hs, IH. reflexivity.
Qed.

Lemma split_char_no_nl_app (x t : string) :
  all_chars no_nl x = true ->
  split_char (ascii_of_nat 10) (x ++ nl ++ t) = x :: split_char (ascii_of_nat 10) t.
Proof.
  induction x as [|d x IH]; intros H; [reflexivity|].
  cbn [all_chars] in H. apply andb_prop in H as [Hd H].
  change ((String d x ++ nl ++ t)) with (String d (x ++ nl ++ t)).
  cbn [split_char]. unfold no_nl in Hd. apply negb_true_iff in Hd. rewrite Hd, (IH H).
  reflexivity.
Qed.

Lemma split_char_no_nl (x : string) :
  all_chars no_nl x = true -> split_char (ascii_of_nat 10) x = [x].
Proof.
  induction x as [|d x IH]; intros H; [reflexivity|].
  cbn [all_chars] in H. apply andb_prop in H as [Hd H].
  cbn [split_char]. unfold no_nl in Hd. apply negb_true_iff in Hd. rewrite Hd, (IH H).
  reflexivity.
Qed.

(** [lines.join('\n').split('\n')] gives back lines without newlines. *)
Lemma split_join (l : list string) :
  l <> [] -> Forall (fun x => all_chars no_nl x = true) l ->
  split_char (ascii_of_nat 10) (JS.join nl l) = l.
Proof.
  intros Hne Hl. induction Hl as [|x l Hx Hl IH]; [congruence|].
  destruct l as [|y l]; [exact (split_char_no_nl _ Hx)|].
  rewrite join_cons, split_char_no_nl_app by exact Hx. rewrite IH by discriminate. reflexivity.
Qed.

Lemma split_char_lines_no_nl (s : string) :
  Forall (fun x => all_chars no_nl x = true) (split_char (ascii_of_nat 10) s).
Proof.
  induction s as [|d r IH]; [repeat constructor|].
  cbn [split_char]. destruct (Ascii.eqb (ascii_of_nat 10) d) eqn:E.
  - constructor; [reflexivity|exact IH].
  - destruct (split_char (ascii_of_nat 10) r) as [|x xs]; [repeat constructor; cbn; unfold no_nl; rewrite E; reflexivity|].
    inversion IH as [|? ? Hx Hxs]; subst. constructor; [|exact Hxs].
    cbn [all_chars]. unfold no_nl at 1. rewrite E. exact Hx.
Qed.

Lemma findIndex_from_first (l : list string) (i k : nat) :
  nth_error l k = Some "---" ->
  (forall j, j < k -> 0 < i + j -> nth_error l j <> Some "---") ->
  0 < i + k ->
  findIndex_from i l = Some (i + k).
Proof.
  revert i k; induction l as [|a l IH]; intros i k Hk Hbefore Hpos.
  - destruct k; discriminate.
  - cbn [findIndex_from].
    destruct ((0 <? i) && String.eqb a "---") eqn:E.
    + apply andb_prop in E as [Ei Ea]. apply String.eqb_eq in Ea. subst a.
      destruct k as [|k]; [f_equal; lia|].
      exfalso. apply (Hbefore 0); [lia| apply Nat.ltb_lt in Ei; lia|reflexivity].
    + destruct k as [|k].
      * cbn in Hk. injection Hk as ->. rewrite String.eqb_refl, andb_true_r in E.
        apply Nat.ltb_ge in E. lia.
      * rewrite (IH (S i) k Hk); [f_equal; lia| |lia].
        intros j Hj Hp. apply (Hbefore (S j)); lia.
Qed.


(** When line [k > 0] of the document is the first line after the first
    one to be exactly [---], post-processing inserts the four AgentForge
    lines (generator, date, complexity, features) right before it and
    leaves every other line as it was; this needs the date, the
    complexity and the features to hold no newline. *)
Theorem postProcessSkillMd_inserts (now_iso content : string) (request : SkillGenerationRequest)
    (k : nat) :
  let content' := if JS.starts_with "---" content then content else "---" ++ nl ++ content in
  let lines := split_char (ascii_of_nat 10) content' in
  0 < k ->
  nth_error lines k = Some "---" ->
  (forall j, 0 < j < k -> nth_error lines j <> Some "---") ->
  all_chars no_nl now_iso = true ->
  (forall c, complexity request = Some c -> all_chars no_nl c = true) ->
  Forall (fun f => all_chars no_nl f = true) (features request) ->
  split_char (ascii_of_nat 10) (postProcessSkillMd now_iso content request) =
  (firstn k lines ++
   ["generated_by: AgentForge"; String.append "generation_date: " now_iso;
    String.append "complexity: " (request_complexity request); features_line request] ++
   skipn k lines)%list.
Proof.
  intros content' lines Hk Hnth Hbefore Hnow Hcx Hft.
  unfold postProcessSkillMd. fold content'. fold lines.
  rewrite (findIndex_from_first lines 0 k Hnth) by (try (intros; apply Hbefore); lia).
  cbn [Nat.add]. apply split_join.
  - destruct k as [|k]; [lia|].
    destruct lines as [|x xs]; [destruct (S k); discriminate|]. cbn. discriminate.
  - pose proof (split_char_lines_no_nl content') as Hl. fold lines in Hl.
    apply Forall_app; split; [apply Forall_take, Hl|].
    apply Forall_app; split; [|apply Forall_drop, Hl].
    repeat constructor.
    + rewrite all_chars_app, Hnow. reflexivity.
    + rewrite all_chars_app. unfold request_complexity, JS.or_default.
      destruct (complexity request) as [c|] eqn:Ec; [|reflexivity].
      destruct (JS.truthy c); [rewrite (Hcx c eq_refl); reflexivity|reflexivity].
    + unfold features_line. rewrite !all_chars_app. cbn [all_chars].
      rewrite all_chars_join; [reflexivity|reflexivity|].
      apply Forall_map. eapply Forall_impl; [exact Hft|].
      intros f Hf. cbn beta. rewrite !all_chars_app, Hf. reflexivity.
Qed.

(** The security score is 100 minus the deductions of the patterns that
    match the combined content (eval 30, exec 25, innerHTML 15,
    process.env 5), minus 10 when neither [try] nor [catch] occurs in it;
    the largest total is 85, so the clamp at 0 never applies. *)
Theorem security_score_formula (skill : GeneratedSkill) :
  let c := allContent (skillMd skill) (codeFiles skill) in
  security_score (enhancedValidation skill) =
  (100 - ((if Regex.test Regex.eval_call c then 30 else 0) +
          (if Regex.test Regex.exec_call c then 25 else 0) +
          (if Regex.test Regex.innerHTML_assign c then 15 else 0) +
          (if Regex.test Regex.process_env c then 5 else 0) +
          (if negb (JS.includes c "try") && negb (JS.includes c "catch") then 10 else 0)))%Z.
Proof. exact (security_score_eq skill). Qed.

(** The performance score is 90 when [setInterval] occurs in the combined
    content without [clearInterval], and 100 otherwise. *)
Theorem performance_score_formula (skill : GeneratedSkill) :
  let c := allContent (skillMd skill) (codeFiles skill) in
  performance_score (enhancedValidation skill) =
  (if JS.includes c "setInterval" && negb (JS.includes c "clearInterval") then 90 else 100)%Z.
Proof. exact (performance_score_eq skill). Qed.

(** Every post-processed document starts with [---], whatever the
    provider returned. *)
Theorem postProcessSkillMd_starts_with_dashes (now_iso content : string)
    (request : SkillGenerationRequest) :
  JS.starts_with "---" (postProcessSkillMd now_iso content request) = true.
Proof. exact (postProcess_starts now_iso content request). Qed.

(** ** Instances of the properties above *)

Lemma structural_errors_iff_witness :
  In "Missing YAML frontmatter" (errors (enhancedValidation (skill_for_validation "plain text" []))).
Proof. apply (proj2 (proj1 (structural_errors_iff (skill_for_validation "plain text" [])))). vm_compute. reflexivity. Defined.

Lemma no_headers_documentation_witness :
  (bonus (validateDocumentation "plain text") <= 3)%Z.
Proof. apply (proj2 (no_headers_documentation "plain text" ltac:(vm_compute; reflexivity))). Defined.

Lemma parseField_head_line_witness :
  Frontmatter.parseField ("name: Weather Bot" ++ nl ++ "version: 2.0.0") "name" "" = "Weather Bot".
Proof.
  refine (eq_trans (parseField_head_line "name" "W" "eather Bot" "version: 2.0.0" ""
                      ltac:(left; reflexivity) ltac:(reflexivity) ltac:(vm_compute; reflexivity)) _).
  vm_compute. reflexivity.
Defined.

Lemma postProcessSkillMd_no_closing_witness :
  postProcessSkillMd "2026-01-01T00:00:00.000Z" "hello world" sample_request =
  "---" ++ nl ++ "hello world".
Proof.
  apply (postProcessSkillMd_no_closing "2026-01-01T00:00:00.000Z" "hello world" sample_request).
  vm_compute. intros [H|[]]. discriminate H.
Defined.

Lemma postProcessSkillMd_inserts_witness :
  split_char (ascii_of_nat 10)
    (postProcessSkillMd "2026-01-01T00:00:00.000Z"
       ("---" ++ nl ++ "name: x" ++ nl ++ "---" ++ nl ++ "body") sample_request) =
  ["---"; "name: x"; "generated_by: AgentForge"; "generation_date: 2026-01-01T00:00:00.000Z";
   "complexity: intermediate"; String.append "features: [" (dq ++ "api" ++ dq ++ "]"); "---"; "body"].
Proof.
  refine (eq_trans (postProcessSkillMd_inserts "2026-01-01T00:00:00.000Z"
                      ("---" ++ nl ++ "name: x" ++ nl ++ "---" ++ nl ++ "body") sample_request 2
                      ltac:(lia) ltac:(vm_compute; reflexivity) _ ltac:(vm_compute; reflexivity) _ _) _).
  - intros j Hj. assert (j = 1) as -> by lia. vm_compute. discriminate.
  - intros c H. discriminate H.
  - repeat constructor.
  - vm_compute. reflexivity.
Defined.

Lemma generateSkill_success_witness :
  match run_with echo_template_provider (fun _ => None) sample_engine sample_request with
  | (inr g, w') => provider_calls w' = 1
  | (inl _, _) => False
  end.
Proof.
  destruct (run_with echo_template_provider (fun _ => None) sample_engine sample_request)
    as [[e|g] w'] eqn:E.
  - vm_compute in E. discriminate.
  - unfold run_with in E.
    destruct (generateSkill_success _ _ _ _ _ _ _ _ _ _ _ E) as (_ & t & c & _ & _ & _ & Hc & _).
    rewrite Hc. reflexivity.
Defined.

Lemma generateSkill_report_witness :
  match run_with echo_template_provider (fun _ => None) sample_engine sample_request with
  | (inr g, _) => (65 <= score (validationResult g))%Z
  | (inl _, _) => False
  end.
Proof.
  destruct (run_with echo_template_provider (fun _ => None) sample_engine sample_request)
    as [[e|g] w'] eqn:E.
  - vm_compute in E. discriminate.
  - unfold run_with in E. exact (proj2 (proj2 (proj2 (generateSkill_report _ _ _ _ _ _ _ _ _ _ _ E)))).
Defined.

Lemma generateSkill_solana_config_witness :
  match run_with echo_template_provider (fun _ => None) sample_engine metaplex_request with
  | (inr g, _) => solanaConfig g <> None
  | (inl _, _) => False
  end.
Proof.
  destruct (run_with echo_template_provider (fun _ => None) sample_engine metaplex_request)
    as [[e|g] w'] eqn:E.
  - vm_compute in E. discriminate.
  - unfold run_with in E. intros Hn.
    destruct (proj1 (proj1 (generateSkill_solana_config _ _ _ _ _ _ _ _ _ _ _ E)) Hn
                ["metaplex"] eq_refl) as (_ & _ & H3).
    apply H3. left. reflexivity.
Defined.

Lemma generateSkill_written_files_witness :
  match run_with echo_template_provider (fun _ => None) sample_out_engine sample_request with
  | (inr g, w') => length (written w') = 2
  | (inl _, _) => False
  end.
Proof.
  destruct (run_with echo_template_provider (fun _ => None) sample_out_engine sample_request)
    as [[e|g] w'] eqn:E.
  - vm_compute in E. discriminate.
  - unfold run_with in E.
    rewrite (proj2 (generateSkill_written_files _ _ _ _ _ _ _ _ _ _ _ E) "skills" eq_refl eq_refl).
    reflexivity.
Defined.

Lemma generateSkill_empty_response_witness :
  run_with empty_provider (fun _ => None) sample_engine sample_request =
  (inl "Skill generation failed: OpenAI returned empty response",
   {| provider_calls := 1; written := [] |}).
Proof.
  unfold run_with.
  apply (generateSkill_empty_response empty_provider "2026-01-01T00:00:00.000Z"
           (fun a b => a ++ "/" ++ b) (fun _ => None) (fun _ _ => None) (fun _ => "{}")
           sample_engine sample_request openclaw_template world0).
  - vm_compute. reflexivity.
  - vm_compute. reflexivity.
  - right. reflexivity.
Defined.

Lemma generateSkill_provider_error_witness :
  run_with rejecting_provider (fun _ => None) sample_engine sample_request =
  (inl "Skill generation failed: Rate limit exceeded",
   {| provider_calls := 1; written := [] |}).
Proof.
  unfold run_with.
  apply (generateSkill_provider_error rejecting_provider "2026-01-01T00:00:00.000Z"
           (fun a b => a ++ "/" ++ b) (fun _ => None) (fun _ _ => None) (fun _ => "{}")
           sample_engine sample_request openclaw_template "Rate limit exceeded" world0).
  - vm_compute. reflexivity.
  - vm_compute. reflexivity.
  - reflexivity.
Defined.

Lemma generateSkill_ensureDir_failure_witness :
  run_with echo_template_provider (fun _ => Some "EACCES") sample_out_engine sample_request =
  (inl "Skill generation failed: EACCES", {| provider_calls := 1; written := [] |}).
Proof.
  unfold run_with.
  apply (generateSkill_ensureDir_failure echo_template_provider "2026-01-01T00:00:00.000Z"
           (fun a b => a ++ "/" ++ b) (fun _ => Some "EACCES") (fun _ _ => None) (fun _ => "{}")
           sample_out_engine sample_request openclaw_template (tpl_content openclaw_template)
           "EACCES" world0).
  - vm_compute. reflexivity.
  - vm_compute. reflexivity.
  - reflexivity.
  - vm_compute. reflexivity.
  - reflexivity.
  - intros dir. reflexivity.
Defined.

Lemma buildEnhancedPrompt_contents_witness :
  JS.includes (buildEnhancedPrompt sample_request openclaw_template)
    ("- Integrations: none" ++ nl) = true.
Proof.
  apply (proj2 (proj2 (buildEnhancedPrompt_contents sample_request openclaw_template))).
  left. reflexivity.
Defined.
